(** * django-smartchunks: the [chunk], [object_chunk] and
    [object_chunks_list] template tags

    A shallow embedding of [chunks/templatetags/chunks.py]: the three
    node classes with their [render] methods and the three tag
    compilation functions, followed by the properties of the chunk
    resolution and caching policy.  The specification names the three
    [render] methods after what they do: resolve_global is
    [ChunkNode.render], resolve_object is [ObjChunkNode.render] and
    bind_all is [ObjChunksListNode.render].

    Rendering is effectful Python: it reads and writes the process-wide
    cache, queries the ORM, calls methods of model instances and may
    raise.  The embedding threads an explicit [World] through a small
    state-and-exception monad and records every call to a collaborator
    in a trace, so that a statement such as: the content store is not
    consulted, is a statement about the trace. *)

From Stdlib Require Import ZArith String Ascii.
From stdpp Require Import base option list gmap strings pretty.

Local Open Scope string_scope.
Local Open Scope Z_scope.

(** ** Exceptions and outcomes *)

(** The messages of the [TemplateSyntaxError]s raised by this module.  The
    [%r] of the tag name is kept as the argument it formats.  The last
    message is not of this module: it is the one [template.Variable]
    raises for a name that begins with an underscore. *)
Inductive SyntaxMessage :=
| chunk_should_have_2_or_3_arguments (tag : string)
| object_chunk_should_have_3_or_5_arguments (tag : string)
| object_chunks_list_should_have_only_2_arguments (tag : string)
| argument_should_be_in_quotes (tag : string)
| default_chunk_argument_should_be_in_quotes
| context_variable_name_quotes_differ
| variables_may_not_begin_with_underscores (var : string).

Inductive Exn :=
| ImproperlyConfigured
| TemplateSyntaxError (msg : SyntaxMessage)
| VariableDoesNotExist
| Chunk_DoesNotExist
| InlineChunk_DoesNotExist
| MultipleObjectsReturned
| UnboundLocalError (name : string)
| IndexError
| ValueError
| AttributeError
| TypeError.

#[global] Instance SyntaxMessage_eq_dec : EqDecision SyntaxMessage.
Proof. solve_decision. Defined.

#[global] Instance Exn_eq_dec : EqDecision Exn.
Proof. solve_decision. Defined.

(** What evaluating a Python expression or running a call ends in. *)
Inductive Outcome (A : Type) :=
| Returns (a : A)
| Raises (e : Exn).
Arguments Returns {A} a.
Arguments Raises {A} e.

#[global] Instance Outcome_ret : MRet Outcome := λ A a, Returns a.
#[global] Instance Outcome_bind : MBind Outcome := λ A B f m,
  match m with
  | Returns a => f a
  | Raises e => Raises e
  end.

(** ** Python values *)

(** A model instance that owns inline chunks: its class (which selects
    the content type) and its primary key [id]. *)
Module Owner.
Record t := { class : string; id : Z }.
End Owner.

#[global] Instance Owner_eq_dec : EqDecision Owner.t.
Proof. solve_decision. Defined.

(** The values a template context holds, as far as the tags look at them. *)
Inductive PyVal :=
| VNone
| VStr (s : string)
| VInt (z : Z)
| VObj (o : Owner.t)
| VRequest (path : string)
| VDict (d : gmap string string).

#[global] Instance PyVal_eq_dec : EqDecision PyVal.
Proof. solve_decision. Defined.

(** Python truth value: [if not request], [if self.default_chunk], ... *)
Definition truthy (v : PyVal) : bool :=
  match v with
  | VNone => false
  | VStr s => negb (String.eqb s EmptyString)
  | VInt z => negb (z =? 0)
  | VObj _ => true
  | VRequest _ => true
  | VDict d => negb (bool_decide (d = ∅))
  end.

(** Truth value of an attribute that is [None] or a string. *)
Definition truthy_opt (o : option string) : bool :=
  match o with
  | None => false
  | Some s => negb (String.eqb s EmptyString)
  end.

(** ** Strings and lists, the Python way *)

(** [s[i]]: a one-character string; negative indices count from the end;
    out of range raises [IndexError]. *)
Definition str_getitem (s : string) (i : Z) : Outcome string :=
  let n := Z.of_nat (String.length s) in
  let j := if i <? 0 then n + i else i in
  if (j <? 0) || (n <=? j) then Raises IndexError
  else match String.get (Z.to_nat j) s with
       | Some c => Returns (String c EmptyString)
       | None => Raises IndexError
       end.

(** [s[1:-1]]. *)
Definition str_strip_ends (s : string) : string :=
  String.substring 1 (String.length s - 2)%nat s.

(** [x in (a, b, ...)] on strings. *)
Definition str_in (x : string) (l : list string) : bool :=
  existsb (String.eqb x) l.

(** [tokens[i]] for a non-negative [i]. *)
Definition list_getitem (l : list string) (i : nat) : Outcome string :=
  match l !! i with
  | Some x => Returns x
  | None => Raises IndexError
  end.

(** Reading a local variable that may not have been assigned yet. *)
Definition load {A} (name : string) (v : option A) : Outcome A :=
  match v with
  | Some a => Returns a
  | None => Raises (UnboundLocalError name)
  end.

(** [a, b = l], [a, b, c = l], ...: the lengths must agree. *)
Definition unpack2 (l : list string) : Outcome (string * string) :=
  match l with
  | [a; b] => Returns (a, b)
  | _ => Raises ValueError
  end.

Definition unpack3 (l : list string) : Outcome (string * string * string) :=
  match l with
  | [a; b; c] => Returns (a, b, c)
  | _ => Raises ValueError
  end.

Definition unpack4 (l : list string)
  : Outcome (string * string * string * string) :=
  match l with
  | [a; b; c; d] => Returns (a, b, c, d)
  | _ => Raises ValueError
  end.

Definition unpack5 (l : list string)
  : Outcome (string * string * string * string * string) :=
  match l with
  | [a; b; c; d; e] => Returns (a, b, c, d, e)
  | _ => Raises ValueError
  end.

(** The two quote characters, as one-character strings. *)
Definition double_quote : string := String (ascii_of_nat 34) EmptyString.
Definition single_quote : string := String (ascii_of_nat 39) EmptyString.

(** One of the two quote characters, and a text between two of the same. *)
Definition is_quote (q : string) : Prop := q = single_quote ∨ q = double_quote.

Definition quoted (q body : string) : string := q ++ body ++ q.

(** A token that starts and ends with the same quote character: a quoted
    text, or a quote character on its own. *)
Definition in_quotes (s : string) : Prop :=
  ∃ q, is_quote q ∧ (s = q ∨ ∃ body, s = quoted q body).

(** [key[0] == key[-1] and key[0] in (double quote, single quote)].  Both
    subscripts of the comparison are evaluated first, so an empty string
    raises [IndexError]. *)
Definition properly_quoted (s : string) : Outcome bool :=
  first ← str_getitem s 0;
  last ← str_getitem s (-1);
  mret (String.eqb first last && str_in first [double_quote; single_quote]).

(** ** Models and the content store *)

Module Chunk.
Record t := { key : string; content : string }.
End Chunk.

Module InlineChunk.
Record t := {
  content_type : Z;
  object_id : Z;
  key : string;
  content : string }.
End InlineChunk.

#[global] Instance Chunk_eq_dec : EqDecision Chunk.t.
Proof. solve_decision. Defined.

#[global] Instance InlineChunk_eq_dec : EqDecision InlineChunk.t.
Proof. solve_decision. Defined.

(** The local [c] of the [render] methods holds an instance of either
    model; [c.build_content] dispatches on it. *)
Inductive AnyChunk :=
| a_Chunk (c : Chunk.t)
| an_InlineChunk (c : InlineChunk.t).

#[global] Instance AnyChunk_eq_dec : EqDecision AnyChunk.
Proof. solve_decision. Defined.

(** The two tables behind [Chunk.objects] and [InlineChunk.objects]. *)
Record ContentStore := {
  Chunk_rows : list Chunk.t;
  InlineChunk_rows : list InlineChunk.t }.

(** [Model.objects.get(...)]: the single row that matches; no row raises
    the model's [DoesNotExist], several raise [MultipleObjectsReturned]. *)
Definition objects_get {A} (matches : A → bool) (rows : list A)
    (does_not_exist : Exn) : Outcome A :=
  match List.filter matches rows with
  | [] => Raises does_not_exist
  | [row] => Returns row
  | _ => Raises MultipleObjectsReturned
  end.

Definition Chunk_matches (key : string) (c : Chunk.t) : bool :=
  String.eqb (Chunk.key c) key.

Definition InlineChunk_matches (content_type object_id : Z) (key : string)
    (c : InlineChunk.t) : bool :=
  Z.eqb (InlineChunk.content_type c) content_type
  && Z.eqb (InlineChunk.object_id c) object_id
  && String.eqb (InlineChunk.key c) key.

(** What the two managers answer on a given store. *)
Definition Chunk_lookup (s : ContentStore) (key : string) : Outcome Chunk.t :=
  objects_get (Chunk_matches key) (Chunk_rows s) Chunk_DoesNotExist.

Definition InlineChunk_lookup (s : ContentStore) (content_type object_id : Z)
    (key : string) : Outcome InlineChunk.t :=
  objects_get (InlineChunk_matches content_type object_id key)
    (InlineChunk_rows s) InlineChunk_DoesNotExist.

(** ** The world a tag renders in *)

Abbreviation TemplateContext := (gmap string PyVal).

(** Every call a [render] method makes to a collaborator. *)
Inductive Event :=
| EvCacheGet (cache_key : string)
| EvCacheSet (cache_key : string) (value : string) (timeout : Z)
| EvChunkGet (key : string)
| EvInlineChunkGet (content_type object_id : Z) (key : string)
| EvBuildContent (c : AnyChunk) (request : PyVal)
| EvChunks (o : Owner.t) (request : PyVal).

#[global] Instance Event_eq_dec : EqDecision Event.
Proof. solve_decision. Defined.

(** The cache key of a call to the cache. *)
Definition cache_key_of (ev : Event) : option string :=
  match ev with
  | EvCacheGet cache_key => Some cache_key
  | EvCacheSet cache_key _ _ => Some cache_key
  | _ => None
  end.

(** [cache] is [django.core.cache.cache] at the time of the call: under
    each key the value the cache holds and the seconds that entry has
    left, which is the timeout it was set with when it has just been
    written.  A [render] reads the cache before it writes to it, so an
    entry is read back by a later call only, in the world [later] gives.
    [context] is the template context handed to [render], seen through
    its string keys. *)
Record World := {
  cache : gmap string (string * Z);
  store : ContentStore;
  context : TemplateContext;
  trace : list Event }.

Definition log (evs : list Event) (w : World) : World :=
  {| cache := cache w; store := store w; context := context w;
     trace := trace w ++ evs |}.

Definition with_cache (c : gmap string (string * Z)) (w : World) : World :=
  {| cache := c; store := store w; context := context w; trace := trace w |}.

Definition with_context (c : TemplateContext) (w : World) : World :=
  {| cache := cache w; store := store w; context := c; trace := trace w |}.

(** The world after the authoring system has rewritten the tables. *)
Definition with_store (s : ContentStore) (w : World) : World :=
  {| cache := cache w; store := s; context := context w; trace := trace w |}.

(** Expiry.  [seconds] later an entry is still held when its timeout has
    not run out, with that much less time left; an entry set with a
    timeout of zero or less is held for no later call. *)
Definition expire (seconds : Z) (entry : string * Z) : option (string * Z) :=
  if seconds <? entry.2 then Some (entry.1, entry.2 - seconds) else None.

(** The world [seconds] later: the cache has aged, nothing else has
    changed. *)
Definition later (seconds : Z) (w : World) : World :=
  with_cache (omap (expire seconds) (cache w)) w.

(** What [if not request] tests after [context.get('request', None)]. *)
Definition holds_request (w : World) : bool :=
  truthy (default VNone (context w !! "request")).

(** ** Collaborators defined outside this module

    [CACHE_PREFIX] is [Chunk.ITEM_CACHE_PREFIX]; [chunk_item_cache_key] and
    [chunks] are methods of the owning model instance; [build_content] is
    the method of [Chunk] and [InlineChunk] that renders the content;
    [get_for_model] is [ContentType.objects.get_for_model] on the class of
    the owner, giving the primary key of the content type;
    [template_Variable var] is the constructor call
    [template.Variable(var)], which raises for a token it does not accept
    and otherwise returns the variable, given here by its [resolve]
    method; and [int_of_str] is the builtin [int] on a string ([None] for
    [ValueError]). *)
Class Collaborators := {
  CACHE_PREFIX : string;
  chunk_item_cache_key : Owner.t → string → string;
  chunks : Owner.t → PyVal → TemplateContext → Outcome (gmap string string);
  build_content : AnyChunk → PyVal → TemplateContext → Outcome string;
  get_for_model : string → Z;
  template_Variable : string → Outcome (TemplateContext → Outcome PyVal);
  int_of_str : string → option Z }.

(** [template.Variable(var).resolve(context)].  A node keeps the token
    its variable was built from, and [__init__] returns only when the
    constructor does, so this is what the [resolve] of the variable a
    node holds returns. *)
Definition Variable_resolve `{Collaborators} (var : string)
    (context : TemplateContext) : Outcome PyVal :=
  variable ← template_Variable var; variable context.

(** ** The monad of [render] *)

Definition M (A : Type) : Type := World → Outcome A * World.

#[global] Instance M_ret : MRet M := λ A a w, (Returns a, w).
#[global] Instance M_bind : MBind M := λ A B f m w,
  match m w with
  | (Returns a, w') => f a w'
  | (Raises e, w') => (Raises e, w')
  end.

Definition run {A} (m : M A) (w : World) : Outcome A * World := m w.

Definition lift {A} (o : Outcome A) : M A := λ w, (o, w).

Definition raise {A} (e : Exn) : M A := lift (Raises e).

(** [try: body except <handles>: handler].  What [body] did to the world
    before it raised stays done. *)
Definition try_except {A} (body : M A) (handles : Exn → bool) (handler : M A)
  : M A := λ w,
  match body w with
  | (Raises e, w') => if handles e then handler w' else (Raises e, w')
  | r => r
  end.

(** [cache.get(cache_key)]: [None] is Python's [None].  What the cache
    holds at the time of the call is served. *)
Definition cache_get (cache_key : string) : M (option string) := λ w,
  (Returns (fst <$> cache w !! cache_key), log [EvCacheGet cache_key] w).

(** [cache.set(cache_key, value, timeout)]: the entry starts with
    [timeout] seconds left. *)
Definition cache_set (cache_key value : string) (timeout : Z) : M unit := λ w,
  (Returns (),
   log [EvCacheSet cache_key value timeout]
       (with_cache (<[cache_key := (value, timeout)]> (cache w)) w)).

(** [context.get(name, otherwise)]. *)
Definition context_get (name : string) (otherwise : PyVal) : M PyVal := λ w,
  (Returns (default otherwise (context w !! name)), w).

(** [context[name] = value].  A string names a template variable; a dict
    is unhashable; any other key is bound where no string key reaches it,
    so the string-keyed view of the context is unchanged. *)
Definition context_setitem (name value : PyVal) : M unit := λ w,
  match name with
  | VStr n => (Returns (), with_context (<[n := value]> (context w)) w)
  | VDict _ => (Raises TypeError, w)
  | _ => (Returns (), w)
  end.

(** [Chunk.objects.get(key=key)]. *)
Definition Chunk_objects_get (key : string) : M Chunk.t := λ w,
  (Chunk_lookup (store w) key, log [EvChunkGet key] w).

(** [InlineChunk.objects.get(content_type=..., object_id=..., key=...)]. *)
Definition InlineChunk_objects_get (content_type object_id : Z) (key : string)
  : M InlineChunk.t := λ w,
  (InlineChunk_lookup (store w) content_type object_id key,
   log [EvInlineChunkGet content_type object_id key] w).

(** Looking up a method of the owner on a resolved value: only a model
    instance that owns chunks has [chunk_item_cache_key] and [chunks]. *)
Definition as_owner (v : PyVal) : Outcome Owner.t :=
  match v with
  | VObj o => Returns o
  | _ => Raises AttributeError
  end.

Section Rendering.
Context `{Collaborators}.

Definition CONTEXT_IMPROPERLY_CONFIGURED : Exn := ImproperlyConfigured.

(** [variable.resolve(context)]. *)
Definition resolve (var : string) : M PyVal := λ w,
  (Variable_resolve var (context w), w).

(** [c.build_content(request, context)]. *)
Definition call_build_content (c : AnyChunk) (request : PyVal) : M string :=
  λ w, (build_content c request (context w), log [EvBuildContent c request] w).

(** [obj.chunks(request, context)]. *)
Definition call_chunks (o : Owner.t) (request : PyVal)
  : M (gmap string string) :=
  λ w, (chunks o request (context w), log [EvChunks o request] w).

(** [int(self.cache_time)]: the attribute is the integer 0 or a token. *)
Definition py_int (v : PyVal) : Outcome Z :=
  match v with
  | VInt z => Returns z
  | VStr s => match int_of_str s with
              | Some z => Returns z
              | None => Raises ValueError
              end
  | _ => Raises TypeError
  end.

End Rendering.

(** ** The nodes *)

(** The handlers of the [except] clauses. *)
Definition is_InlineChunk_DoesNotExist (e : Exn) : bool :=
  bool_decide (e = InlineChunk_DoesNotExist).

Definition is_Chunk_DoesNotExist (e : Exn) : bool :=
  bool_decide (e = Chunk_DoesNotExist).

Definition is_Chunk_DoesNotExist_or_VariableDoesNotExist (e : Exn) : bool :=
  bool_decide (e = Chunk_DoesNotExist)
  || bool_decide (e = VariableDoesNotExist).

Module ObjChunkNode.

(** [obj] stands for the [template.Variable] built from the token, which
    [resolve] evaluates; [cache_time] is the integer 0 or the token;
    [default_chunk] is [None] or a string. *)
Record t := {
  obj : string;
  key : string;
  cache_time : PyVal;
  default_chunk : option string }.

(** [template.Variable(obj)] is called first and may raise; the node keeps
    the token of the variable it built. *)
Definition __init__ `{Collaborators} (obj key : string) (cache_time : PyVal)
    (default_chunk : option string) : Outcome t :=
  _ ← template_Variable obj;
  Returns {| obj := obj; key := key; cache_time := cache_time;
             default_chunk := default_chunk |}.

(** In the inner [try], [None] stands for leaving the method with
    [return ''] from inside a handler; [Some c] for falling through to the
    code after the [try] with [c] assigned. *)
Definition render `{Collaborators} (self : t) : M string :=
  try_except
    (obj ← resolve (obj self);
     owner ← lift (as_owner obj);
     let cache_key := chunk_item_cache_key owner (key self) in
     content ← cache_get cache_key;
     match content with
     | Some content => mret content
     | None =>
         found ← try_except
                   (let model_type := get_for_model (Owner.class owner) in
                    let object_id := Owner.id owner in
                    c ← InlineChunk_objects_get model_type object_id
                          (key self);
                    mret (Some (an_InlineChunk c)))
                   is_InlineChunk_DoesNotExist
                   (if truthy_opt (default_chunk self) then
                      try_except
                        (c ← Chunk_objects_get
                               (default EmptyString (default_chunk self));
                         mret (Some (a_Chunk c)))
                        is_Chunk_DoesNotExist
                        (mret None)
                    else mret None);
         match found with
         | None => mret EmptyString
         | Some c =>
             request ← context_get "request" VNone;
             if negb (truthy request) then raise CONTEXT_IMPROPERLY_CONFIGURED
             else
               content ← call_build_content c request;
               timeout ← lift (py_int (cache_time self));
               cache_set cache_key content timeout;;
               mret content
         end
     end)
    is_Chunk_DoesNotExist_or_VariableDoesNotExist
    (mret EmptyString).

End ObjChunkNode.

Module ObjChunksListNode.

Record t := {
  obj : string;
  context_name : option string;
  context_name_var : option string }.

(** The list has ONE element, the two-character string made of a single
    and a double quote. *)
Definition quotes : list string := [single_quote ++ double_quote].

(** [__init__(self, obj, context_name=None)].  [template.Variable(obj)]
    is called first, before the subscript of [context_name], and
    [template.Variable(context_name)] last, on the branch that keeps the
    target as a variable; either may raise. *)
Definition __init__ `{Collaborators} (obj : string)
    (context_name : option string) : Outcome t :=
  _ ← template_Variable obj;
  match context_name with
  | None => Raises TypeError
  | Some context_name =>
      second ← str_getitem context_name 1;
      if str_in second quotes then
        second ← str_getitem context_name 1;
        last ← str_getitem context_name (-1);
        if negb (String.eqb second last) then
          Raises (TemplateSyntaxError context_variable_name_quotes_differ)
        else
          Returns {| obj := obj;
                     context_name := Some (str_strip_ends context_name);
                     context_name_var := None |}
      else
        _ ← template_Variable context_name;
        Returns {| obj := obj;
                   context_name := None;
                   context_name_var := Some context_name |}
  end.

Definition render `{Collaborators} (self : t) : M string :=
  let literal := context_name self in
  let context_name := VStr EmptyString in
  let context_name :=
    if truthy_opt literal then VStr (default EmptyString literal)
    else context_name in
  context_name ← match context_name_var self with
                 | Some var => resolve var
                 | None => mret context_name
                 end;
  chunks ← try_except
             (obj ← resolve (obj self);
              request ← context_get "request" VNone;
              if negb (truthy request) then raise CONTEXT_IMPROPERLY_CONFIGURED
              else
                owner ← lift (as_owner obj);
                call_chunks owner request)
             is_Chunk_DoesNotExist_or_VariableDoesNotExist
             (mret ∅);
  context_setitem context_name (VDict chunks);;
  mret EmptyString.

End ObjChunksListNode.

Module ChunkNode.

Record t := { key : string; cache_time : PyVal }.

Definition __init__ (key : string) (cache_time : PyVal) : t :=
  {| key := key; cache_time := cache_time |}.

Definition render `{Collaborators} (self : t) : M string :=
  try_except
    (let cache_key := CACHE_PREFIX ++ key self in
     content ← cache_get cache_key;
     match content with
     | Some content => mret content
     | None =>
         c ← Chunk_objects_get (key self);
         request ← context_get "request" VNone;
         if negb (truthy request) then raise CONTEXT_IMPROPERLY_CONFIGURED
         else
           content ← call_build_content (a_Chunk c) request;
           timeout ← lift (py_int (cache_time self));
           cache_set cache_key content timeout;;
           mret content
     end)
    is_Chunk_DoesNotExist
    (mret EmptyString).

End ChunkNode.

(** ** Compiling the tags

    [tokens] is [token.split_contents()].  The locals a function assigns
    on some paths only are [option]s, read with [load]. *)

Record ChunkLocals := {
  chunk_tag_name : option string;
  chunk_key : option string;
  chunk_cache_time : option PyVal }.

Definition do_get_chunk (tokens : list string) : Outcome ChunkNode.t :=
  let n := Z.of_nat (length tokens) in
  if (n <? 2) || (n >? 3) then
    tag ← list_getitem tokens 0;
    Raises (TemplateSyntaxError (chunk_should_have_2_or_3_arguments tag))
  else
    let locals := {| chunk_tag_name := None; chunk_key := None;
                     chunk_cache_time := None |} in
    locals ← (if n =? 2 then
                '(tag_name, key) ← unpack2 tokens;
                mret {| chunk_tag_name := Some tag_name; chunk_key := Some key;
                        chunk_cache_time := Some (VInt 0) |}
              else mret locals);
    locals ← (if n =? 3 then
                '(tag_name, key, cache_time) ← unpack3 tokens;
                mret {| chunk_tag_name := Some tag_name; chunk_key := Some key;
                        chunk_cache_time := Some (VStr cache_time) |}
              else mret locals);
    key ← load "key" (chunk_key locals);
    quoted ← properly_quoted key;
    if negb quoted then
      tag_name ← load "tag_name" (chunk_tag_name locals);
      Raises (TemplateSyntaxError (argument_should_be_in_quotes tag_name))
    else
      cache_time ← load "cache_time" (chunk_cache_time locals);
      Returns (ChunkNode.__init__ (str_strip_ends key) cache_time).

Record ObjChunkLocals := {
  tag_name : option string;
  obj : option string;
  key : option string;
  cache_time : option PyVal;
  default_chunk : option string }.

Definition do_get_object_chunk `{Collaborators} (tokens : list string)
  : Outcome ObjChunkNode.t :=
  let n := Z.of_nat (length tokens) in
  let locals := {| tag_name := None; obj := None; key := None;
                   cache_time := None; default_chunk := None |} in
  if (n <? 2) || (n >? 5) then
    tag ← list_getitem tokens 0;
    Raises (TemplateSyntaxError (object_chunk_should_have_3_or_5_arguments tag))
  else
    locals ← (if n =? 3 then
                '(tag_name, obj, key) ← unpack3 tokens;
                mret {| tag_name := Some tag_name; obj := Some obj;
                        key := Some key; cache_time := Some (VInt 0);
                        default_chunk := default_chunk locals |}
              else mret locals);
    locals ← (if n =? 4 then
                '(tag_name, obj, key, cache_time) ← unpack4 tokens;
                mret {| tag_name := Some tag_name; obj := Some obj;
                        key := Some key; cache_time := Some (VStr cache_time);
                        default_chunk := default_chunk locals |}
              else mret locals);
    locals ← (if n =? 5 then
                '(tag_name, obj, key, cache_time, default_chunk)
                  ← unpack5 tokens;
                quoted ← properly_quoted default_chunk;
                if negb quoted then
                  Raises (TemplateSyntaxError
                            default_chunk_argument_should_be_in_quotes)
                else
                  mret {| tag_name := Some tag_name; obj := Some obj;
                          key := Some key;
                          cache_time := Some (VStr cache_time);
                          default_chunk :=
                            Some (str_strip_ends default_chunk) |}
              else mret locals);
    key ← load "key" (key locals);
    quoted ← properly_quoted key;
    if negb quoted then
      tag_name ← load "tag_name" (tag_name locals);
      Raises (TemplateSyntaxError (argument_should_be_in_quotes tag_name))
    else
      obj ← load "obj" (obj locals);
      cache_time ← load "cache_time" (cache_time locals);
      ObjChunkNode.__init__ obj (str_strip_ends key) cache_time
        (default_chunk locals).

Definition do_get_object_chunks_list `{Collaborators}
    (tokens : list string) : Outcome ObjChunksListNode.t :=
  if negb (Z.of_nat (length tokens) =? 3) then
    tag ← list_getitem tokens 0;
    Raises (TemplateSyntaxError
              (object_chunks_list_should_have_only_2_arguments tag))
  else
    '(tag_name, obj, context_name) ← unpack3 tokens;
    ObjChunksListNode.__init__ obj (Some context_name).

(** ** A concrete site, for the examples

    Stand-ins for the collaborators and a small store: one article with
    its inline chunks, and a few global chunks. *)
Module Fixture.

Definition digit (c : ascii) : option Z :=
  let n := Z.of_nat (nat_of_ascii c) in
  if (48 <=? n) && (n <=? 57) then Some (n - 48) else None.

Fixpoint digits (s : string) (acc : Z) : option Z :=
  match s with
  | EmptyString => Some acc
  | String c rest => d ← digit c; digits rest (10 * acc + d)
  end.

(** [int] on a string of decimal digits; anything else is a [ValueError]. *)
Definition int_of_digits (s : string) : option Z :=
  match s with
  | EmptyString => None
  | _ => digits s 0
  end.

(** A variable that reads a quoted token as the literal between the quotes
    and any other token as the name of a context variable. *)
Definition resolve_variable (var : string) (ctx : TemplateContext)
  : Outcome PyVal :=
  match properly_quoted var with
  | Returns true => Returns (VStr (str_strip_ends var))
  | _ => match ctx !! var with
         | Some v => Returns v
         | None => Raises VariableDoesNotExist
         end
  end.

(** The constructor of the variable: a name that begins with an
    underscore is refused. *)
Definition variable (var : string)
  : Outcome (TemplateContext → Outcome PyVal) :=
  match var with
  | String "_"%char _ =>
      Raises (TemplateSyntaxError
                (variables_may_not_begin_with_underscores var))
  | _ => Returns (resolve_variable var)
  end.

Definition content_of (c : AnyChunk) : string :=
  match c with
  | a_Chunk c => Chunk.content c
  | an_InlineChunk c => InlineChunk.content c
  end.

Definition article : Owner.t := {| Owner.class := "Article"; Owner.id := 42 |}.

Definition byline : InlineChunk.t :=
  {| InlineChunk.content_type := 7; InlineChunk.object_id := 42;
     InlineChunk.key := "byline"; InlineChunk.content := "By J. Doe" |}.

Definition footer : Chunk.t :=
  {| Chunk.key := "footer"; Chunk.content := "(c) Acme" |}.

Definition byline_default : Chunk.t :=
  {| Chunk.key := "byline_default"; Chunk.content := "Staff" |}.

(** Chunks whose content renders to the empty string. *)
Definition blank : Chunk.t :=
  {| Chunk.key := "blank"; Chunk.content := EmptyString |}.

Definition teaser : InlineChunk.t :=
  {| InlineChunk.content_type := 7; InlineChunk.object_id := 42;
     InlineChunk.key := "teaser"; InlineChunk.content := EmptyString |}.

Definition site : ContentStore :=
  {| Chunk_rows := [footer; byline_default; blank];
     InlineChunk_rows := [byline; teaser] |}.

#[local] Instance collaborators : Collaborators := {|
  CACHE_PREFIX := "chunk_";
  chunk_item_cache_key o key :=
    "chunk_" ++ Owner.class o ++ "_" ++ pretty (Owner.id o) ++ "_" ++ key;
  chunks o request ctx := Returns {[ "byline" := "By J. Doe" ]};
  build_content c request ctx := Returns (content_of c);
  get_for_model class := if String.eqb class "Article" then 7 else 0;
  template_Variable := variable;
  int_of_str := int_of_digits |}.

Definition request : PyVal := VRequest "/articles/42/".

(** A request is in the context, as the [request] context processor
    leaves it. *)
Definition page : World :=
  {| cache := ∅; store := site;
     context := {[ "request" := request; "article" := VObj article;
                   "slot" := VStr "sidebar" ]};
     trace := [] |}.

(** The page after the chunk called goodbye and the inline chunk called
    aside were deleted: their last renders are still in the cache. *)
Definition page_with_old_cache : World :=
  {| cache := {[ "chunk_goodbye" := ("So long", 60);
                 "chunk_Article_42_aside" := ("An aside", 60) ]};
     store := site;
     context := {[ "request" := request; "article" := VObj article;
                   "slot" := VStr "sidebar" ]};
     trace := [] |}.

(** The same page rendered without the context processor. *)
Definition page_without_request : World :=
  {| cache := ∅; store := site;
     context := {[ "article" := VObj article; "slot" := VStr "sidebar" ]};
     trace := [] |}.

End Fixture.

(** * Properties *)

(** ** Worlds *)

Lemma log_log evs1 evs2 w : log evs2 (log evs1 w) = log (evs1 ++ evs2) w.
Proof. unfold log; simpl. by rewrite app_assoc. Qed.

Lemma with_cache_log c evs w :
  with_cache c (log evs w) = log evs (with_cache c w).
Proof. reflexivity. Qed.

Lemma with_context_log c evs w :
  with_context c (log evs w) = log evs (with_context c w).
Proof. reflexivity. Qed.

Lemma cache_log evs w : cache (log evs w) = cache w.
Proof. reflexivity. Qed.

Lemma context_log evs w : context (log evs w) = context w.
Proof. reflexivity. Qed.

Lemma store_log evs w : store (log evs w) = store w.
Proof. reflexivity. Qed.

(** Unfolds one layer of the monad and of the primitive calls. *)
Ltac exec :=
  unfold run, try_except, mbind, M_bind, mret, M_ret, raise, lift,
    cache_get, cache_set, context_get, context_setitem, Chunk_objects_get,
    InlineChunk_objects_get, resolve, call_build_content, call_chunks,
    CONTEXT_IMPROPERLY_CONFIGURED;
  simpl.

(** Uses a hypothesis about one step of the run. *)
Ltac step H := rewrite ?cache_log, ?context_log, ?store_log; rewrite H; simpl.

(** Closes a goal that equates two outcomes whose worlds differ by the
    bracketing of the trace only. *)
Ltac same_world :=
  rewrite ?with_cache_log, ?with_context_log, ?log_log; simpl;
  rewrite ?cache_log, ?context_log, ?store_log; reflexivity.

(** ** The cache, later *)

Lemma later_lookup (seconds : Z) (w : World) (cache_key : string) :
  cache (later seconds w) !! cache_key
    = cache w !! cache_key ≫= expire seconds.
Proof. apply lookup_omap. Qed.

(** An entry is held until its timeout has run out, and no longer. *)
Lemma later_live (seconds : Z) (w : World) (cache_key value : string)
    (timeout : Z) :
  seconds < timeout →
  cache w !! cache_key = Some (value, timeout) →
  cache (later seconds w) !! cache_key = Some (value, timeout - seconds).
Proof.
  intros Hlive Hentry. rewrite later_lookup, Hentry. simpl.
  unfold expire. simpl. by rewrite (proj2 (Z.ltb_lt _ _) Hlive).
Qed.

Lemma later_expired (seconds : Z) (w : World) (cache_key value : string)
    (timeout : Z) :
  timeout ≤ seconds →
  cache w !! cache_key = Some (value, timeout) →
  cache (later seconds w) !! cache_key = None.
Proof.
  intros Hexpired Hentry. rewrite later_lookup, Hentry. simpl.
  unfold expire. simpl. by rewrite (proj2 (Z.ltb_ge _ _) Hexpired).
Qed.

Lemma later_miss (seconds : Z) (w : World) (cache_key : string) :
  cache w !! cache_key = None →
  cache (later seconds w) !! cache_key = None.
Proof. intros Hmiss. by rewrite later_lookup, Hmiss. Qed.

(** A world reached by waiting holds no entry whose time has run out. *)
Lemma later_fresh (seconds : Z) (w : World) (cache_key value : string)
    (left : Z) :
  0 ≤ seconds →
  cache (later seconds w) !! cache_key = Some (value, left) →
  0 < left.
Proof.
  intros Hseconds. rewrite later_lookup.
  destruct (cache w !! cache_key) as [[v timeout]|]; [|done]. simpl.
  unfold expire. simpl. destruct (seconds <? timeout) eqn:Hlive; [|done].
  apply Z.ltb_lt in Hlive. intros [= _ <-]. lia.
Qed.

(** Waiting twice is waiting once for the sum. *)
Lemma later_later (a b : Z) (w : World) :
  0 ≤ a → 0 ≤ b → later b (later a w) = later (a + b) w.
Proof.
  intros Ha Hb. unfold later, with_cache. simpl. f_equal.
  apply map_eq. intros k. rewrite !lookup_omap.
  destruct (cache w !! k) as [[v timeout]|]; [|done]. simpl.
  unfold expire. simpl.
  destruct (a <? timeout) eqn:Hfirst; simpl.
  - apply Z.ltb_lt in Hfirst.
    destruct (b <? timeout - a) eqn:Hsecond.
    + apply Z.ltb_lt in Hsecond.
      rewrite (proj2 (Z.ltb_lt (a + b) timeout)) by lia.
      do 2 f_equal. lia.
    + apply Z.ltb_ge in Hsecond.
      by rewrite (proj2 (Z.ltb_ge (a + b) timeout)) by lia.
  - apply Z.ltb_ge in Hfirst.
    by rewrite (proj2 (Z.ltb_ge (a + b) timeout)) by lia.
Qed.

(** ** Variables *)

(** A variable that resolves was built: [template.Variable] accepted its
    token. *)
Lemma Variable_resolve_Returns `{Collaborators} (var : string)
    (ctx : TemplateContext) (v : PyVal) :
  Variable_resolve var ctx = Returns v →
  ∃ variable, template_Variable var = Returns variable
              ∧ variable ctx = Returns v.
Proof.
  unfold Variable_resolve. destruct (template_Variable var) as [variable|e];
    [|done].
  intros Hv. by exists variable.
Qed.

(** ** What the store answers *)

Lemma objects_get_DoesNotExist {A} (matches : A → bool) (rows : list A)
    (e : Exn) :
  e ≠ MultipleObjectsReturned →
  objects_get matches rows e = Raises e ↔ List.filter matches rows = [].
Proof.
  intros He. unfold objects_get.
  destruct (List.filter matches rows) as [|row [|row' rest]]; split;
    intros Heq; try done; congruence.
Qed.

(** [Chunk.DoesNotExist] is raised exactly when no row has the key. *)
Lemma Chunk_lookup_DoesNotExist (s : ContentStore) (key : string) :
  Chunk_lookup s key = Raises Chunk_DoesNotExist
  ↔ List.filter (Chunk_matches key) (Chunk_rows s) = [].
Proof. by apply objects_get_DoesNotExist. Qed.

(** [InlineChunk.DoesNotExist] is raised exactly when no row belongs to the
    owner under the key. *)
Lemma InlineChunk_lookup_DoesNotExist (s : ContentStore)
    (content_type object_id : Z) (key : string) :
  InlineChunk_lookup s content_type object_id key
    = Raises InlineChunk_DoesNotExist
  ↔ List.filter (InlineChunk_matches content_type object_id key)
      (InlineChunk_rows s) = [].
Proof. by apply objects_get_DoesNotExist. Qed.

(** A row that is found matches what was asked for. *)
Lemma Chunk_lookup_Returns (s : ContentStore) (key : string) (c : Chunk.t) :
  Chunk_lookup s key = Returns c → Chunk.key c = key ∧ In c (Chunk_rows s).
Proof.
  unfold Chunk_lookup, objects_get. intros Hget.
  destruct (List.filter (Chunk_matches key) (Chunk_rows s))
    as [|row [|row' rest]] eqn:Hrows; simplify_eq.
  assert (Hin : In c (List.filter (Chunk_matches key) (Chunk_rows s)))
    by (rewrite Hrows; by left).
  apply filter_In in Hin as [Hin Hkey]. split; [|done].
  by apply String.eqb_eq.
Qed.

Lemma InlineChunk_lookup_Returns (s : ContentStore)
    (content_type object_id : Z) (key : string) (c : InlineChunk.t) :
  InlineChunk_lookup s content_type object_id key = Returns c →
  InlineChunk.content_type c = content_type
  ∧ InlineChunk.object_id c = object_id
  ∧ InlineChunk.key c = key
  ∧ In c (InlineChunk_rows s).
Proof.
  unfold InlineChunk_lookup, objects_get. intros Hget.
  destruct (List.filter (InlineChunk_matches content_type object_id key)
              (InlineChunk_rows s)) as [|row [|row' rest]] eqn:Hrows;
    simplify_eq.
  assert (Hin : In c (List.filter
                        (InlineChunk_matches content_type object_id key)
                        (InlineChunk_rows s)))
    by (rewrite Hrows; by left).
  apply filter_In in Hin as [Hin Hmatch].
  unfold InlineChunk_matches in Hmatch.
  apply andb_prop in Hmatch as [Hmatch Hkey].
  apply andb_prop in Hmatch as [Htype Hid].
  repeat split; [by apply Z.eqb_eq | by apply Z.eqb_eq
                | by apply String.eqb_eq | done].
Qed.

(** ** Whether the context holds a request *)

Lemma holds_request_Some (w : World) (request : PyVal) :
  context w !! "request" = Some request →
  holds_request w = truthy request.
Proof. unfold holds_request. by intros ->. Qed.

(** ** The conversion of the cache time *)

(** [int] fails with [ValueError] or [TypeError], which no handler of the
    [render] methods catches. *)
Lemma py_int_Raises `{Collaborators} (v : PyVal) (e : Exn) :
  py_int v = Raises e → e = ValueError ∨ e = TypeError.
Proof.
  unfold py_int. intros Hint. repeat case_match; simplify_eq; eauto.
Qed.

(** ** [ChunkNode.render], path by path *)

Section ChunkNode_paths.
Context `{Collaborators}.
Variables (self : ChunkNode.t) (w : World).

Let cache_key : string := CACHE_PREFIX ++ ChunkNode.key self.

Lemma ChunkNode_run_hit (text : string) (timeout : Z) :
  cache w !! cache_key = Some (text, timeout) →
  run (ChunkNode.render self) w = (Returns text, log [EvCacheGet cache_key] w).
Proof.
  intros Hhit. unfold ChunkNode.render. exec. fold cache_key.
  step Hhit. reflexivity.
Qed.

Lemma ChunkNode_run_not_found :
  cache w !! cache_key = None →
  Chunk_lookup (store w) (ChunkNode.key self) = Raises Chunk_DoesNotExist →
  run (ChunkNode.render self) w =
    (Returns EmptyString,
     log [EvCacheGet cache_key; EvChunkGet (ChunkNode.key self)] w).
Proof.
  intros Hmiss Hnone. unfold ChunkNode.render. exec. fold cache_key.
  step Hmiss. step Hnone. same_world.
Qed.

Lemma ChunkNode_run_no_request (c : Chunk.t) :
  cache w !! cache_key = None →
  Chunk_lookup (store w) (ChunkNode.key self) = Returns c →
  holds_request w = false →
  run (ChunkNode.render self) w =
    (Raises ImproperlyConfigured,
     log [EvCacheGet cache_key; EvChunkGet (ChunkNode.key self)] w).
Proof.
  intros Hmiss Hfound Hrequest. unfold holds_request in Hrequest.
  unfold ChunkNode.render. exec. fold cache_key.
  step Hmiss. step Hfound. step Hrequest. same_world.
Qed.

Lemma ChunkNode_run_rendered (c : Chunk.t) (request : PyVal) (text : string)
    (timeout : Z) :
  cache w !! cache_key = None →
  Chunk_lookup (store w) (ChunkNode.key self) = Returns c →
  context w !! "request" = Some request →
  truthy request = true →
  build_content (a_Chunk c) request (context w) = Returns text →
  py_int (ChunkNode.cache_time self) = Returns timeout →
  run (ChunkNode.render self) w =
    (Returns text,
     log [EvCacheGet cache_key;
          EvChunkGet (ChunkNode.key self);
          EvBuildContent (a_Chunk c) request;
          EvCacheSet cache_key text timeout]
       (with_cache (<[cache_key := (text, timeout)]> (cache w)) w)).
Proof.
  intros Hmiss Hfound Hrequest Htruthy Hrender Htimeout.
  unfold ChunkNode.render. exec. fold cache_key.
  step Hmiss. step Hfound. step Hrequest. step Htruthy.
  step Hrender. step Htimeout. same_world.
Qed.

(** A call that misses, finds the Chunk and returns has rendered it,
    stored the rendered text and returned it; the one other way to return
    is the handler, with the empty string, when [build_content] itself
    raised [Chunk.DoesNotExist]. *)
Lemma ChunkNode_run_found_returns (c : Chunk.t) (text : string) (w' : World) :
  cache w !! cache_key = None →
  Chunk_lookup (store w) (ChunkNode.key self) = Returns c →
  run (ChunkNode.render self) w = (Returns text, w') →
  let request := default VNone (context w !! "request") in
  truthy request = true
  ∧ ((∃ timeout,
        build_content (a_Chunk c) request (context w) = Returns text
        ∧ py_int (ChunkNode.cache_time self) = Returns timeout
        ∧ w' = log [EvCacheGet cache_key;
                    EvChunkGet (ChunkNode.key self);
                    EvBuildContent (a_Chunk c) request;
                    EvCacheSet cache_key text timeout]
                 (with_cache (<[cache_key := (text, timeout)]> (cache w)) w))
     ∨ (text = EmptyString
        ∧ build_content (a_Chunk c) request (context w)
          = Raises Chunk_DoesNotExist)).
Proof.
  intros Hmiss Hfound. unfold ChunkNode.render. exec. fold cache_key.
  step Hmiss. step Hfound.
  destruct (truthy (default VNone (context w !! "request"))); simpl;
    [|done].
  destruct (build_content _ _ _) as [text'|e]; simpl.
  - destruct (py_int _) as [timeout|e] eqn:Htimeout; simpl.
    + intros [= <- <-]. split; [done|]. left. exists timeout.
      repeat split. same_world.
    + by apply py_int_Raises in Htimeout as [-> | ->].
  - destruct (is_Chunk_DoesNotExist e) eqn:He; [|done].
    apply bool_decide_eq_true in He as ->. intros [= <- _]. eauto.
Qed.

(** The integer conversion of the cache time comes after the render: a
    token that is no integer raises [ValueError] at render time, and what
    was rendered is not cached. *)
Lemma ChunkNode_run_bad_cache_time (c : Chunk.t) (request : PyVal)
    (text : string) (e : Exn) :
  cache w !! cache_key = None →
  Chunk_lookup (store w) (ChunkNode.key self) = Returns c →
  context w !! "request" = Some request →
  truthy request = true →
  build_content (a_Chunk c) request (context w) = Returns text →
  py_int (ChunkNode.cache_time self) = Raises e →
  is_Chunk_DoesNotExist e = false →
  run (ChunkNode.render self) w =
    (Raises e,
     log [EvCacheGet cache_key;
          EvChunkGet (ChunkNode.key self);
          EvBuildContent (a_Chunk c) request] w).
Proof.
  intros Hmiss Hfound Hrequest Htruthy Hrender Htimeout Hhandled.
  unfold ChunkNode.render. exec. fold cache_key.
  step Hmiss. step Hfound. step Hrequest. step Htruthy.
  step Hrender. step Htimeout. step Hhandled. same_world.
Qed.

(** Whatever the world and however the call ends, every call to the
    cache is made under [CACHE_PREFIX ++ key]. *)
Lemma ChunkNode_run_cache_keys :
  ∃ evs, trace (run (ChunkNode.render self) w).2 = (trace w ++ evs)%list
         ∧ ∀ ev k, ev ∈ evs → cache_key_of ev = Some k → k = cache_key.
Proof.
  unfold ChunkNode.render. exec. fold cache_key.
  repeat case_match; simplify_eq; simpl; rewrite <- ?app_assoc; simpl;
    (eexists; split; [reflexivity|]);
    intros ev k Hin Hkey;
    repeat (apply elem_of_cons in Hin as [->|Hin];
            [simpl in Hkey; congruence|]);
    by apply elem_of_nil in Hin.
Qed.

End ChunkNode_paths.

(** ** [ObjChunkNode.render], path by path *)

Section ObjChunkNode_paths.
Context `{Collaborators}.
Variables (self : ObjChunkNode.t) (w : World) (owner : Owner.t).

Let cache_key : string := chunk_item_cache_key owner (ObjChunkNode.key self).
Let model_type : Z := get_for_model (Owner.class owner).
Let inline_lookup : Event :=
  EvInlineChunkGet model_type (Owner.id owner) (ObjChunkNode.key self).

Hypothesis owner_resolves :
  Variable_resolve (ObjChunkNode.obj self) (context w) = Returns (VObj owner).

Lemma ObjChunkNode_run_hit (text : string) (timeout : Z) :
  cache w !! cache_key = Some (text, timeout) →
  run (ObjChunkNode.render self) w =
    (Returns text, log [EvCacheGet cache_key] w).
Proof.
  intros Hhit. unfold ObjChunkNode.render. exec.
  step owner_resolves. fold cache_key. step Hhit. reflexivity.
Qed.

Hypothesis miss : cache w !! cache_key = None.

(** The steps every miss starts with. *)
Ltac enter :=
  unfold ObjChunkNode.render; exec;
  step owner_resolves; fold cache_key; step miss; fold model_type.

Lemma ObjChunkNode_run_no_default :
  InlineChunk_lookup (store w) model_type (Owner.id owner)
    (ObjChunkNode.key self) = Raises InlineChunk_DoesNotExist →
  truthy_opt (ObjChunkNode.default_chunk self) = false →
  run (ObjChunkNode.render self) w =
    (Returns EmptyString, log [EvCacheGet cache_key; inline_lookup] w).
Proof.
  intros Hnone Hdefault. enter. step Hnone. step Hdefault. same_world.
Qed.

Lemma ObjChunkNode_run_default_not_found (default_key : string) :
  InlineChunk_lookup (store w) model_type (Owner.id owner)
    (ObjChunkNode.key self) = Raises InlineChunk_DoesNotExist →
  truthy_opt (ObjChunkNode.default_chunk self) = true →
  ObjChunkNode.default_chunk self = Some default_key →
  Chunk_lookup (store w) default_key = Raises Chunk_DoesNotExist →
  run (ObjChunkNode.render self) w =
    (Returns EmptyString,
     log [EvCacheGet cache_key; inline_lookup; EvChunkGet default_key] w).
Proof.
  intros Hnone Hgiven Hdefault Hnone'.
  enter. step Hnone. step Hgiven. step Hdefault. step Hnone'. same_world.
Qed.

Lemma ObjChunkNode_run_inline_no_request (c : InlineChunk.t) :
  InlineChunk_lookup (store w) model_type (Owner.id owner)
    (ObjChunkNode.key self) = Returns c →
  holds_request w = false →
  run (ObjChunkNode.render self) w =
    (Raises ImproperlyConfigured, log [EvCacheGet cache_key; inline_lookup] w).
Proof.
  intros Hfound Hrequest. unfold holds_request in Hrequest.
  enter. step Hfound. step Hrequest. same_world.
Qed.

Lemma ObjChunkNode_run_default_no_request (default_key : string)
    (c : Chunk.t) :
  InlineChunk_lookup (store w) model_type (Owner.id owner)
    (ObjChunkNode.key self) = Raises InlineChunk_DoesNotExist →
  truthy_opt (ObjChunkNode.default_chunk self) = true →
  ObjChunkNode.default_chunk self = Some default_key →
  Chunk_lookup (store w) default_key = Returns c →
  holds_request w = false →
  run (ObjChunkNode.render self) w =
    (Raises ImproperlyConfigured,
     log [EvCacheGet cache_key; inline_lookup; EvChunkGet default_key] w).
Proof.
  intros Hnone Hgiven Hdefault Hfound Hrequest.
  unfold holds_request in Hrequest.
  enter. step Hnone. step Hgiven. step Hdefault. step Hfound. step Hrequest.
  same_world.
Qed.

Lemma ObjChunkNode_run_inline_rendered (c : InlineChunk.t) (request : PyVal)
    (text : string) (timeout : Z) :
  InlineChunk_lookup (store w) model_type (Owner.id owner)
    (ObjChunkNode.key self) = Returns c →
  context w !! "request" = Some request →
  truthy request = true →
  build_content (an_InlineChunk c) request (context w) = Returns text →
  py_int (ObjChunkNode.cache_time self) = Returns timeout →
  run (ObjChunkNode.render self) w =
    (Returns text,
     log [EvCacheGet cache_key;
          inline_lookup;
          EvBuildContent (an_InlineChunk c) request;
          EvCacheSet cache_key text timeout]
       (with_cache (<[cache_key := (text, timeout)]> (cache w)) w)).
Proof.
  intros Hfound Hrequest Htruthy Hrender Htimeout.
  enter. step Hfound. step Hrequest. step Htruthy.
  step Hrender. step Htimeout. same_world.
Qed.

Lemma ObjChunkNode_run_default_rendered (default_key : string) (c : Chunk.t)
    (request : PyVal) (text : string) (timeout : Z) :
  InlineChunk_lookup (store w) model_type (Owner.id owner)
    (ObjChunkNode.key self) = Raises InlineChunk_DoesNotExist →
  truthy_opt (ObjChunkNode.default_chunk self) = true →
  ObjChunkNode.default_chunk self = Some default_key →
  Chunk_lookup (store w) default_key = Returns c →
  context w !! "request" = Some request →
  truthy request = true →
  build_content (a_Chunk c) request (context w) = Returns text →
  py_int (ObjChunkNode.cache_time self) = Returns timeout →
  run (ObjChunkNode.render self) w =
    (Returns text,
     log [EvCacheGet cache_key;
          inline_lookup;
          EvChunkGet default_key;
          EvBuildContent (a_Chunk c) request;
          EvCacheSet cache_key text timeout]
       (with_cache (<[cache_key := (text, timeout)]> (cache w)) w)).
Proof.
  intros Hnone Hgiven Hdefault Hfound Hrequest Htruthy Hrender Htimeout.
  enter. step Hnone. step Hgiven. step Hdefault. step Hfound.
  step Hrequest. step Htruthy. step Hrender. step Htimeout. same_world.
Qed.

(** However the rest of the call goes once the inline chunk is found
    (no request, a renderer or a conversion that raises, a render that
    is cached), [Chunk.objects.get] is not among the calls made. *)
Lemma ObjChunkNode_run_inline_trace (c : InlineChunk.t) :
  InlineChunk_lookup (store w) model_type (Owner.id owner)
    (ObjChunkNode.key self) = Returns c →
  ∃ evs, trace (run (ObjChunkNode.render self) w).2 = (trace w ++ evs)%list
         ∧ ∀ key, EvChunkGet key ∉ evs.
Proof.
  intros Hfound. enter. step Hfound.
  destruct (truthy (default VNone (context w !! "request"))); simpl;
    [destruct (build_content _ _ _) as [text|e]; simpl;
     [destruct (py_int _) as [timeout|e]; simpl|]|];
    try destruct (is_Chunk_DoesNotExist_or_VariableDoesNotExist e); simpl;
    rewrite <- ?app_assoc; simpl;
    (eexists; split; [reflexivity|]);
    intros key Hin;
    repeat (apply elem_of_cons in Hin as [Hin|Hin]; [discriminate Hin|]);
    by apply elem_of_nil in Hin.
Qed.

(** A text that is returned once the inline chunk is found is what
    [build_content] made of that chunk; the one other way to return is
    the outer handler, with the empty string, when [build_content] raised
    one of the two exceptions it catches. *)
Lemma ObjChunkNode_run_inline_returns (c : InlineChunk.t) (text : string)
    (w' : World) :
  InlineChunk_lookup (store w) model_type (Owner.id owner)
    (ObjChunkNode.key self) = Returns c →
  run (ObjChunkNode.render self) w = (Returns text, w') →
  let request := default VNone (context w !! "request") in
  truthy request = true
  ∧ (build_content (an_InlineChunk c) request (context w) = Returns text
     ∨ (text = EmptyString
        ∧ ∃ e, build_content (an_InlineChunk c) request (context w) = Raises e
               ∧ is_Chunk_DoesNotExist_or_VariableDoesNotExist e = true)).
Proof.
  intros Hfound. enter. step Hfound.
  destruct (truthy (default VNone (context w !! "request"))); simpl;
    [|done].
  destruct (build_content _ _ _) as [text'|e]; simpl.
  - destruct (py_int _) as [timeout|e] eqn:Htimeout; simpl;
      [intros [= <- _]; eauto|].
    by apply py_int_Raises in Htimeout as [-> | ->].
  - destruct (is_Chunk_DoesNotExist_or_VariableDoesNotExist e) eqn:He;
      [|done].
    intros [= <- _]. eauto 6.
Qed.

End ObjChunkNode_paths.

(** ** When the renderer is called

    [build_content] is reached on one path of each [render]: the cache
    was missed, a chunk was found and the context holds a request. *)

Lemma trace_unchanged {A} (l evs : list A) : l = (l ++ evs)%list → evs = [].
Proof. intros Heq. apply (app_inv_head l). by rewrite app_nil_r. Qed.

Lemma request_in_context (w : World) (request : PyVal) :
  default VNone (context w !! "request") = request →
  truthy request = true →
  context w !! "request" = Some request.
Proof. destruct (context w !! "request"); simpl; by intros <-. Qed.

(** Given the events a run appended and a [build_content] among them,
    finds which one it is. *)
Ltac which_event Htrace Hin :=
  simpl in Htrace; rewrite <- ?app_assoc in Htrace;
  first [apply app_inv_head in Htrace | apply trace_unchanged in Htrace];
  subst;
  repeat (apply elem_of_cons in Hin as [Hin|Hin];
          [first [discriminate Hin | injection Hin as -> ->]|]);
  try (by apply elem_of_nil in Hin).

Lemma ChunkNode_rendered_inversion `{Collaborators} (self : ChunkNode.t)
    (w : World) (evs : list Event) (c : AnyChunk) (request : PyVal) :
  trace (run (ChunkNode.render self) w).2 = (trace w ++ evs)%list →
  EvBuildContent c request ∈ evs →
  cache w !! (CACHE_PREFIX ++ ChunkNode.key self) = None
  ∧ (∃ row, c = a_Chunk row
            ∧ Chunk_lookup (store w) (ChunkNode.key self) = Returns row)
  ∧ default VNone (context w !! "request") = request
  ∧ truthy request = true.
Proof.
  unfold ChunkNode.render. exec. intros Htrace Hin.
  destruct (cache w !! _) as [[text timeout]|] eqn:Hcache; simpl in Htrace;
    [which_event Htrace Hin|].
  destruct (Chunk_lookup _ _) as [row|e] eqn:Hrow; simpl in Htrace;
    [|destruct (is_Chunk_DoesNotExist e); which_event Htrace Hin].
  destruct (truthy _) eqn:Htruthy; simpl in Htrace;
    [|which_event Htrace Hin].
  destruct (build_content _ _ _) as [text|e]; simpl in Htrace;
    [destruct (py_int _) as [timeout|e]; simpl in Htrace|];
    try destruct (is_Chunk_DoesNotExist e);
    which_event Htrace Hin; eauto 10.
Qed.

Lemma ObjChunkNode_rendered_inversion `{Collaborators} (self : ObjChunkNode.t)
    (w : World) (evs : list Event) (c : AnyChunk) (request : PyVal) :
  trace (run (ObjChunkNode.render self) w).2 = (trace w ++ evs)%list →
  EvBuildContent c request ∈ evs →
  ∃ owner,
    Variable_resolve (ObjChunkNode.obj self) (context w) = Returns (VObj owner)
    ∧ cache w !! chunk_item_cache_key owner (ObjChunkNode.key self) = None
    ∧ default VNone (context w !! "request") = request
    ∧ truthy request = true
    ∧ ((∃ row, c = an_InlineChunk row
               ∧ InlineChunk_lookup (store w)
                   (get_for_model (Owner.class owner)) (Owner.id owner)
                   (ObjChunkNode.key self) = Returns row)
       ∨ (∃ default_key row,
            c = a_Chunk row
            ∧ InlineChunk_lookup (store w)
                (get_for_model (Owner.class owner)) (Owner.id owner)
                (ObjChunkNode.key self) = Raises InlineChunk_DoesNotExist
            ∧ truthy_opt (ObjChunkNode.default_chunk self) = true
            ∧ ObjChunkNode.default_chunk self = Some default_key
            ∧ Chunk_lookup (store w) default_key = Returns row)).
Proof.
  unfold ObjChunkNode.render. exec. intros Htrace Hin.
  destruct (Variable_resolve _ _) as [obj|e] eqn:Hobj; simpl in Htrace;
    [|destruct (is_Chunk_DoesNotExist_or_VariableDoesNotExist e);
      which_event Htrace Hin].
  destruct obj as [| | |owner| |]; simpl in Htrace;
    try which_event Htrace Hin.
  exists owner. split; [done|].
  destruct (cache w !! _) as [[text timeout]|] eqn:Hcache; simpl in Htrace;
    [which_event Htrace Hin|].
  split; [done|].
  destruct (InlineChunk_lookup _ _ _ _) as [row|e] eqn:Hinline;
    simpl in Htrace.
  - destruct (truthy _) eqn:Htruthy; simpl in Htrace;
      [|which_event Htrace Hin].
    destruct (build_content _ _ _) as [text|e]; simpl in Htrace;
      [destruct (py_int _) as [timeout|e]; simpl in Htrace|];
      try destruct (is_Chunk_DoesNotExist_or_VariableDoesNotExist e);
      which_event Htrace Hin; eauto 12.
  - destruct (is_InlineChunk_DoesNotExist e) eqn:He; simpl in Htrace;
      [|destruct (is_Chunk_DoesNotExist_or_VariableDoesNotExist e);
        which_event Htrace Hin].
    apply bool_decide_eq_true in He as ->.
    destruct (truthy_opt _) eqn:Hgiven; simpl in Htrace;
      [|which_event Htrace Hin].
    destruct (ObjChunkNode.default_chunk self) as [default_key|] eqn:Hdefault;
      [|done].
    simpl in Htrace.
    destruct (Chunk_lookup _ _) as [row|e] eqn:Hrow; simpl in Htrace;
      [|destruct (is_Chunk_DoesNotExist e); simpl in Htrace;
        [|destruct (is_Chunk_DoesNotExist_or_VariableDoesNotExist e)];
        which_event Htrace Hin].
    destruct (truthy _) eqn:Htruthy; simpl in Htrace;
      [|which_event Htrace Hin].
    destruct (build_content _ _ _) as [text|e]; simpl in Htrace;
      [destruct (py_int _) as [timeout|e]; simpl in Htrace|];
      try destruct (is_Chunk_DoesNotExist_or_VariableDoesNotExist e);
      which_event Htrace Hin; eauto 15.
Qed.

(** ** Compiling [object_chunks_list] *)

(** A subscript of a string is one character long. *)
Lemma str_getitem_one_character (s : string) (i : Z) (c : string) :
  str_getitem s i = Returns c → ∃ a, c = String a EmptyString.
Proof.
  unfold str_getitem. intros Hget.
  destruct (_ || _); [done|].
  destruct (String.get _ s) as [a|]; [|done].
  exists a. congruence.
Qed.

(** No single character equals the one, two-character element of
    [quotes]: the branch of [__init__] that strips the quotes itself is
    never taken. *)
Lemma quotes_never_match (s : string) (i : Z) (c : string) :
  str_getitem s i = Returns c → str_in c ObjChunksListNode.quotes = false.
Proof.
  intros Hget. apply str_getitem_one_character in Hget as [a ->].
  unfold str_in, ObjChunksListNode.quotes. simpl.
  by destruct (Ascii.eqb a _).
Qed.

(** Every node [__init__] builds holds the target name as a variable. *)
Lemma ObjChunksListNode_init_variable `{Collaborators}
    (obj context_name : string) (self : ObjChunksListNode.t) :
  ObjChunksListNode.__init__ obj (Some context_name) = Returns self →
  self = {| ObjChunksListNode.obj := obj;
            ObjChunksListNode.context_name := None;
            ObjChunksListNode.context_name_var := Some context_name |}.
Proof.
  unfold ObjChunksListNode.__init__, mbind, Outcome_bind. intros Hinit.
  destruct (template_Variable obj) as [owner_variable|e]; [|done].
  destruct (str_getitem context_name 1) as [second|e] eqn:Hsecond; [|done].
  rewrite (quotes_never_match _ _ _ Hsecond) in Hinit.
  destruct (template_Variable context_name) as [variable|e]; [|done].
  by simplify_eq.
Qed.

(** The test of the quotes subscripts the SECOND character of the target
    name, so a target of one character cannot be compiled at all, even
    when [template.Variable] accepts the owner. *)
Lemma do_get_object_chunks_list_one_character `{Collaborators}
    (tag owner_ref : string) (a : ascii)
    (variable : TemplateContext → Outcome PyVal) :
  template_Variable owner_ref = Returns variable →
  do_get_object_chunks_list [tag; owner_ref; String a EmptyString]
    = Raises IndexError.
Proof.
  intros Howner.
  unfold do_get_object_chunks_list, ObjChunksListNode.__init__. simpl.
  by rewrite Howner.
Qed.

Lemma do_get_object_chunks_list_node `{Collaborators}
    (tag owner_ref target_name : string) (self : ObjChunksListNode.t) :
  do_get_object_chunks_list [tag; owner_ref; target_name] = Returns self →
  self = {| ObjChunksListNode.obj := owner_ref;
            ObjChunksListNode.context_name := None;
            ObjChunksListNode.context_name_var := Some target_name |}.
Proof. apply ObjChunksListNode_init_variable. Qed.

(** ** [ObjChunksListNode.render], path by path *)

Section ObjChunksListNode_paths.
Context `{Collaborators}.
Variables (owner_ref target_name : string) (w : World).

Let self : ObjChunksListNode.t :=
  {| ObjChunksListNode.obj := owner_ref;
     ObjChunksListNode.context_name := None;
     ObjChunksListNode.context_name_var := Some target_name |}.

(** The target name is resolved first, outside the [try]. *)
Lemma ObjChunksListNode_run_name_unresolved (e : Exn) :
  Variable_resolve target_name (context w) = Raises e →
  run (ObjChunksListNode.render self) w = (Raises e, w).
Proof.
  intros Hname. unfold ObjChunksListNode.render. exec. by step Hname.
Qed.

Lemma ObjChunksListNode_run_no_request (name obj : PyVal) :
  Variable_resolve target_name (context w) = Returns name →
  Variable_resolve owner_ref (context w) = Returns obj →
  holds_request w = false →
  run (ObjChunksListNode.render self) w = (Raises ImproperlyConfigured, w).
Proof.
  intros Hname Hobj Hrequest. unfold holds_request in Hrequest.
  unfold ObjChunksListNode.render. exec.
  step Hname. step Hobj. by step Hrequest.
Qed.

Lemma ObjChunksListNode_run_owner_unresolved (name : string) :
  Variable_resolve target_name (context w) = Returns (VStr name) →
  Variable_resolve owner_ref (context w) = Raises VariableDoesNotExist →
  run (ObjChunksListNode.render self) w =
    (Returns EmptyString, with_context (<[name := VDict ∅]> (context w)) w).
Proof.
  intros Hname Hobj. unfold ObjChunksListNode.render. exec.
  step Hname. by step Hobj.
Qed.

Lemma ObjChunksListNode_run_bound (name : string) (owner : Owner.t)
    (request : PyVal) (mapping : gmap string string) :
  Variable_resolve target_name (context w) = Returns (VStr name) →
  Variable_resolve owner_ref (context w) = Returns (VObj owner) →
  context w !! "request" = Some request →
  truthy request = true →
  chunks owner request (context w) = Returns mapping →
  run (ObjChunksListNode.render self) w =
    (Returns EmptyString,
     log [EvChunks owner request]
       (with_context (<[name := VDict mapping]> (context w)) w)).
Proof.
  intros Hname Hobj Hrequest Htruthy Hchunks.
  unfold ObjChunksListNode.render. exec.
  step Hname. step Hobj. step Hrequest. step Htruthy. step Hchunks.
  same_world.
Qed.

End ObjChunksListNode_paths.

(** Whatever the node and the world, a [render] that returns has returned
    the empty string, has left the cache and the store alone, and has at
    most bound one name of the context to a mapping. *)
Lemma ObjChunksListNode_run_returns `{Collaborators}
    (self : ObjChunksListNode.t) (w w' : World) (output : string) :
  run (ObjChunksListNode.render self) w = (Returns output, w') →
  output = EmptyString
  ∧ cache w' = cache w
  ∧ store w' = store w
  ∧ (context w' = context w
     ∨ ∃ name mapping, context w' = <[name := VDict mapping]> (context w)).
Proof.
  unfold ObjChunksListNode.render. exec. intros Hrun.
  repeat case_match; simplify_eq; simpl;
    repeat split; try done; eauto.
Qed.

(** ** Compiling [object_chunk] *)

(** The guard of [do_get_object_chunk] rejects a lone tag name and more
    than five tokens with a [TemplateSyntaxError]. *)
Lemma do_get_object_chunk_rejected_lengths `{Collaborators} (tag : string)
    (rest : list string) :
  rest = [] ∨ (5 ≤ length rest)%nat →
  do_get_object_chunk (tag :: rest) =
    Raises (TemplateSyntaxError
              (object_chunk_should_have_3_or_5_arguments tag)).
Proof.
  intros [->|Hlong]; [reflexivity|].
  do 5 (destruct rest as [|? rest]; [simpl in Hlong; lia|]).
  unfold do_get_object_chunk.
  replace (_ || _) with true; [reflexivity|].
  symmetry. apply orb_true_iff. right. apply Z.gtb_lt.
  simpl length. lia.
Qed.

(** C4.  Two tokens, the tag name and an owner, are outside the bound of
    3 to 5 that the message of the guard announces, yet they pass the
    guard, which tests [len(tokens) < 2].  No branch assigns [key], and
    the quote check that follows reads it: compiling the tag ends in
    [UnboundLocalError], not in a [TemplateSyntaxError]. *)
Theorem do_get_object_chunk_two_tokens `{Collaborators}
    (tag owner_ref : string) :
  do_get_object_chunk [tag; owner_ref] = Raises (UnboundLocalError "key").
Proof. reflexivity. Qed.

(** * The claims about rendering *)

(** C1.  An [object_chunk] tag that misses the cache and finds an
    InlineChunk for the content type of the owner, its id and the key
    never calls [Chunk.objects.get], with or without a default chunk,
    however the call ends.  A text it returns is the rendered content of
    that InlineChunk, [build_content] of it with the request of the
    context (the empty string of the outer handler apart, when
    [build_content] itself raised what that handler catches).  And it
    does return that content, and caches it, when the context holds a
    request, [build_content] returns and the cache time converts. *)
Theorem ObjChunkNode_render_prefers_InlineChunk `{Collaborators}
    (self : ObjChunkNode.t) (w : World) (owner : Owner.t)
    (c : InlineChunk.t) :
  let cache_key := chunk_item_cache_key owner (ObjChunkNode.key self) in
  let model_type := get_for_model (Owner.class owner) in
  Variable_resolve (ObjChunkNode.obj self) (context w)
    = Returns (VObj owner) →
  cache w !! cache_key = None →
  InlineChunk_lookup (store w) model_type (Owner.id owner)
    (ObjChunkNode.key self) = Returns c →
  (∃ evs, trace (run (ObjChunkNode.render self) w).2 = (trace w ++ evs)%list
          ∧ ∀ key, EvChunkGet key ∉ evs)
  ∧ (∀ (text : string) (w' : World),
       run (ObjChunkNode.render self) w = (Returns text, w') →
       let request := default VNone (context w !! "request") in
       truthy request = true
       ∧ (build_content (an_InlineChunk c) request (context w) = Returns text
          ∨ (text = EmptyString
             ∧ ∃ e, build_content (an_InlineChunk c) request (context w)
                      = Raises e
                    ∧ is_Chunk_DoesNotExist_or_VariableDoesNotExist e = true)))
  ∧ (∀ (request : PyVal) (text : string) (timeout : Z),
       context w !! "request" = Some request →
       truthy request = true →
       build_content (an_InlineChunk c) request (context w) = Returns text →
       py_int (ObjChunkNode.cache_time self) = Returns timeout →
       run (ObjChunkNode.render self) w =
         (Returns text,
          log [EvCacheGet cache_key;
               EvInlineChunkGet model_type (Owner.id owner)
                 (ObjChunkNode.key self);
               EvBuildContent (an_InlineChunk c) request;
               EvCacheSet cache_key text timeout]
            (with_cache (<[cache_key := (text, timeout)]> (cache w)) w))).
Proof.
  intros cache_key model_type Howner Hmiss Hfound. split; [|split].
  - by apply ObjChunkNode_run_inline_trace with owner c.
  - intros text w' Hrun.
    by eapply ObjChunkNode_run_inline_returns.
  - intros request text timeout Hrequest Htruthy Hrender Htimeout.
    by apply ObjChunkNode_run_inline_rendered.
Qed.

(** The byline of article 42, with a default that exists as well: the
    inline chunk wins. *)
Lemma ObjChunkNode_render_prefers_InlineChunk_witness :
  let node := ObjChunkNode.Build_t "article" "byline" (VInt 0)
                (Some "byline_default") in
  let w' := log [EvCacheGet "chunk_Article_42_byline";
                 EvInlineChunkGet 7 42 "byline";
                 EvBuildContent (an_InlineChunk Fixture.byline)
                   Fixture.request;
                 EvCacheSet "chunk_Article_42_byline" "By J. Doe" 0]
              (with_cache (<["chunk_Article_42_byline" := ("By J. Doe", 0)]> ∅)
                 Fixture.page) in
  (∃ evs, trace (run (ObjChunkNode.render (H := Fixture.collaborators) node)
                   Fixture.page).2 = (trace Fixture.page ++ evs)%list
          ∧ ∀ key, EvChunkGet key ∉ evs)
  ∧ (truthy Fixture.request = true
     ∧ (build_content (Collaborators := Fixture.collaborators)
          (an_InlineChunk Fixture.byline) Fixture.request
          (context Fixture.page) = Returns "By J. Doe"
        ∨ ("By J. Doe" = EmptyString
           ∧ ∃ e, build_content (Collaborators := Fixture.collaborators)
                    (an_InlineChunk Fixture.byline) Fixture.request
                    (context Fixture.page) = Raises e
                  ∧ is_Chunk_DoesNotExist_or_VariableDoesNotExist e = true)))
  ∧ run (ObjChunkNode.render (H := Fixture.collaborators) node) Fixture.page
    = (Returns "By J. Doe", w').
Proof.
  intros node w'.
  destruct (ObjChunkNode_render_prefers_InlineChunk
              (H := Fixture.collaborators) node Fixture.page Fixture.article
              Fixture.byline)
    as (Htrace & Hreturned & Hrendered); [vm_compute; reflexivity..|].
  split; [exact Htrace|]. split.
  - apply (Hreturned "By J. Doe" w'). vm_compute; reflexivity.
  - apply (Hrendered Fixture.request "By J. Doe" 0); vm_compute; reflexivity.
Defined.

(** Read for every call, whatever the cache holds, C2 fails when the
    cache still holds the render of a chunk that is gone.  No Chunk is
    called goodbye, the article has no InlineChunk called aside and the
    tag names no default, yet both tags return the cached text and not
    the empty string. *)
Lemma old_render_is_served_when_not_found :
  (Chunk_lookup (store Fixture.page_with_old_cache) "goodbye"
     = Raises Chunk_DoesNotExist
   ∧ run (ChunkNode.render (H := Fixture.collaborators)
            (ChunkNode.__init__ "goodbye" (VStr "60")))
       Fixture.page_with_old_cache
     = (Returns "So long",
        log [EvCacheGet "chunk_goodbye"] Fixture.page_with_old_cache)
   ∧ "So long" ≠ EmptyString)
  ∧
  (InlineChunk_lookup (store Fixture.page_with_old_cache) 7 42 "aside"
     = Raises InlineChunk_DoesNotExist
   ∧ run (ObjChunkNode.render (H := Fixture.collaborators)
            (ObjChunkNode.Build_t "article" "aside" (VInt 0) None))
       Fixture.page_with_old_cache
     = (Returns "An aside",
        log [EvCacheGet "chunk_Article_42_aside"] Fixture.page_with_old_cache)
   ∧ "An aside" ≠ EmptyString).
Proof. repeat split; try (vm_compute; reflexivity); discriminate. Qed.

(** C2, for the calls that miss the cache.  Not found is the empty string
    and is not cached.  A [chunk] tag that misses the cache and whose key
    no Chunk has, and an [object_chunk] tag that misses the cache, finds
    no InlineChunk and has no default chunk, or a default that no Chunk
    has, return the empty string; the calls made are the cache read and
    the lookups, there is no [cache.set], and the cache is what it was. *)
Theorem not_found_returns_empty_and_is_not_cached `{Collaborators} :
  (∀ (self : ChunkNode.t) (w : World),
     let cache_key := CACHE_PREFIX ++ ChunkNode.key self in
     cache w !! cache_key = None →
     Chunk_lookup (store w) (ChunkNode.key self) = Raises Chunk_DoesNotExist →
     run (ChunkNode.render self) w =
       (Returns EmptyString,
        log [EvCacheGet cache_key; EvChunkGet (ChunkNode.key self)] w))
  ∧
  (∀ (self : ObjChunkNode.t) (w : World) (owner : Owner.t),
     let cache_key := chunk_item_cache_key owner (ObjChunkNode.key self) in
     let model_type := get_for_model (Owner.class owner) in
     Variable_resolve (ObjChunkNode.obj self) (context w)
       = Returns (VObj owner) →
     cache w !! cache_key = None →
     InlineChunk_lookup (store w) model_type (Owner.id owner)
       (ObjChunkNode.key self) = Raises InlineChunk_DoesNotExist →
     (truthy_opt (ObjChunkNode.default_chunk self) = false →
      run (ObjChunkNode.render self) w =
        (Returns EmptyString,
         log [EvCacheGet cache_key;
              EvInlineChunkGet model_type (Owner.id owner)
                (ObjChunkNode.key self)] w))
     ∧
     (∀ default_key : string,
        truthy_opt (ObjChunkNode.default_chunk self) = true →
        ObjChunkNode.default_chunk self = Some default_key →
        Chunk_lookup (store w) default_key = Raises Chunk_DoesNotExist →
        run (ObjChunkNode.render self) w =
          (Returns EmptyString,
           log [EvCacheGet cache_key;
                EvInlineChunkGet model_type (Owner.id owner)
                  (ObjChunkNode.key self);
                EvChunkGet default_key] w))).
Proof.
  split.
  - intros self w cache_key Hmiss Hnone. by apply ChunkNode_run_not_found.
  - intros self w owner cache_key model_type Howner Hmiss Hnone. split.
    + intros Hdefault. by apply ObjChunkNode_run_no_default.
    + intros default_key Hgiven Hdefault Hnone'.
      by apply ObjChunkNode_run_default_not_found.
Qed.

(** No chunk is called missing, the article has no sidebar chunk, and
    no chunk is called sidebar_default. *)
Lemma not_found_returns_empty_and_is_not_cached_witness :
  run (ChunkNode.render (H := Fixture.collaborators)
         (ChunkNode.__init__ "missing" (VStr "60"))) Fixture.page
    = (Returns EmptyString,
       log [EvCacheGet "chunk_missing"; EvChunkGet "missing"] Fixture.page)
  ∧ run (ObjChunkNode.render (H := Fixture.collaborators)
           (ObjChunkNode.Build_t "article" "sidebar" (VInt 0) None))
        Fixture.page
    = (Returns EmptyString,
       log [EvCacheGet "chunk_Article_42_sidebar";
            EvInlineChunkGet 7 42 "sidebar"] Fixture.page)
  ∧ run (ObjChunkNode.render (H := Fixture.collaborators)
           (ObjChunkNode.Build_t "article" "sidebar" (VInt 0)
              (Some "sidebar_default"))) Fixture.page
    = (Returns EmptyString,
       log [EvCacheGet "chunk_Article_42_sidebar";
            EvInlineChunkGet 7 42 "sidebar";
            EvChunkGet "sidebar_default"] Fixture.page).
Proof.
  destruct (not_found_returns_empty_and_is_not_cached
              (H := Fixture.collaborators)) as [Hglobal Hobject].
  split; [|split].
  - apply (Hglobal (ChunkNode.__init__ "missing" (VStr "60")) Fixture.page);
      vm_compute; reflexivity.
  - apply (Hobject (ObjChunkNode.Build_t "article" "sidebar" (VInt 0) None)
             Fixture.page Fixture.article); vm_compute; reflexivity.
  - apply (Hobject (ObjChunkNode.Build_t "article" "sidebar" (VInt 0)
                      (Some "sidebar_default"))
             Fixture.page Fixture.article);
      vm_compute; reflexivity.
Defined.

(** C3.  Without a request in the context, a render that was about to
    happen raises [ImproperlyConfigured], and no handler of [render]
    catches it: a [chunk] tag that missed the cache and found its Chunk;
    an [object_chunk] tag that missed the cache and found the InlineChunk,
    or the default Chunk; an [object_chunks_list] tag whose target name
    and owner both resolved.  Nothing was rendered, cached or bound. *)
Theorem missing_request_raises_ImproperlyConfigured `{Collaborators} :
  (∀ (self : ChunkNode.t) (w : World) (c : Chunk.t),
     let cache_key := CACHE_PREFIX ++ ChunkNode.key self in
     cache w !! cache_key = None →
     Chunk_lookup (store w) (ChunkNode.key self) = Returns c →
     holds_request w = false →
     run (ChunkNode.render self) w =
       (Raises ImproperlyConfigured,
        log [EvCacheGet cache_key; EvChunkGet (ChunkNode.key self)] w))
  ∧
  (∀ (self : ObjChunkNode.t) (w : World) (owner : Owner.t),
     let cache_key := chunk_item_cache_key owner (ObjChunkNode.key self) in
     let model_type := get_for_model (Owner.class owner) in
     Variable_resolve (ObjChunkNode.obj self) (context w)
       = Returns (VObj owner) →
     cache w !! cache_key = None →
     holds_request w = false →
     (∀ c : InlineChunk.t,
        InlineChunk_lookup (store w) model_type (Owner.id owner)
          (ObjChunkNode.key self) = Returns c →
        run (ObjChunkNode.render self) w =
          (Raises ImproperlyConfigured,
           log [EvCacheGet cache_key;
                EvInlineChunkGet model_type (Owner.id owner)
                  (ObjChunkNode.key self)] w))
     ∧
     (∀ (default_key : string) (c : Chunk.t),
        InlineChunk_lookup (store w) model_type (Owner.id owner)
          (ObjChunkNode.key self) = Raises InlineChunk_DoesNotExist →
        truthy_opt (ObjChunkNode.default_chunk self) = true →
        ObjChunkNode.default_chunk self = Some default_key →
        Chunk_lookup (store w) default_key = Returns c →
        run (ObjChunkNode.render self) w =
          (Raises ImproperlyConfigured,
           log [EvCacheGet cache_key;
                EvInlineChunkGet model_type (Owner.id owner)
                  (ObjChunkNode.key self);
                EvChunkGet default_key] w)))
  ∧
  (∀ (tag owner_ref target_name : string) (self : ObjChunksListNode.t)
     (w : World) (name obj : PyVal),
     do_get_object_chunks_list [tag; owner_ref; target_name] = Returns self →
     Variable_resolve target_name (context w) = Returns name →
     Variable_resolve owner_ref (context w) = Returns obj →
     holds_request w = false →
     run (ObjChunksListNode.render self) w = (Raises ImproperlyConfigured, w)).
Proof.
  split; [|split].
  - intros self w c cache_key Hmiss Hfound Hrequest.
    by apply ChunkNode_run_no_request with c.
  - intros self w owner cache_key model_type Howner Hmiss Hrequest. split.
    + intros c Hfound. by apply ObjChunkNode_run_inline_no_request with c.
    + intros default_key c Hnone Hgiven Hdefault Hfound.
      by apply ObjChunkNode_run_default_no_request with c.
  - intros tag owner_ref target_name self w name obj Hnode Hname Hobj Hrequest.
    apply do_get_object_chunks_list_node in Hnode as ->.
    by apply ObjChunksListNode_run_no_request with name obj.
Qed.

(** The fixture page rendered without the request context processor. *)
Lemma missing_request_raises_ImproperlyConfigured_witness :
  let w := Fixture.page_without_request in
  run (ChunkNode.render (H := Fixture.collaborators)
         (ChunkNode.__init__ "footer" (VStr "60"))) w
    = (Raises ImproperlyConfigured,
       log [EvCacheGet "chunk_footer"; EvChunkGet "footer"] w)
  ∧ run (ObjChunkNode.render (H := Fixture.collaborators)
           (ObjChunkNode.Build_t "article" "byline" (VInt 0) None)) w
    = (Raises ImproperlyConfigured,
       log [EvCacheGet "chunk_Article_42_byline";
            EvInlineChunkGet 7 42 "byline"] w)
  ∧ run (ObjChunkNode.render (H := Fixture.collaborators)
           (ObjChunkNode.Build_t "article" "sidebar" (VInt 0)
              (Some "byline_default"))) w
    = (Raises ImproperlyConfigured,
       log [EvCacheGet "chunk_Article_42_sidebar";
            EvInlineChunkGet 7 42 "sidebar";
            EvChunkGet "byline_default"] w)
  ∧ run (ObjChunksListNode.render (H := Fixture.collaborators)
           {| ObjChunksListNode.obj := "article";
              ObjChunksListNode.context_name := None;
              ObjChunksListNode.context_name_var := Some "'all_chunks'" |}) w
    = (Raises ImproperlyConfigured, w).
Proof.
  intros w.
  destruct (missing_request_raises_ImproperlyConfigured
              (H := Fixture.collaborators)) as (Hglobal & Hobject & Hlist).
  split; [|split; [|split]].
  - apply (Hglobal (ChunkNode.__init__ "footer" (VStr "60")) w Fixture.footer);
      vm_compute; reflexivity.
  - apply (Hobject (ObjChunkNode.Build_t "article" "byline" (VInt 0) None) w
             Fixture.article) with Fixture.byline; vm_compute; reflexivity.
  - apply (Hobject (ObjChunkNode.Build_t "article" "sidebar" (VInt 0)
                      (Some "byline_default")) w Fixture.article)
      with Fixture.byline_default; vm_compute; reflexivity.
  - apply (Hlist "object_chunks_list" "article" "'all_chunks'" _ w
             (VStr "all_chunks") (VObj Fixture.article));
      vm_compute; reflexivity.
Defined.

(** C5.  When the cache holds a value under the derived cache key, both
    [chunk] and [object_chunk] return that cached text.  The only call
    made is the cache read: no [Chunk] or [InlineChunk] lookup, no
    [build_content], no [cache.set], and the cache is what it was. *)
Theorem cache_hit_returns_cached_text `{Collaborators} :
  (∀ (self : ChunkNode.t) (w : World) (text : string) (timeout : Z),
     let cache_key := CACHE_PREFIX ++ ChunkNode.key self in
     cache w !! cache_key = Some (text, timeout) →
     run (ChunkNode.render self) w =
       (Returns text, log [EvCacheGet cache_key] w))
  ∧
  (∀ (self : ObjChunkNode.t) (w : World) (owner : Owner.t) (text : string)
     (timeout : Z),
     let cache_key := chunk_item_cache_key owner (ObjChunkNode.key self) in
     Variable_resolve (ObjChunkNode.obj self) (context w)
       = Returns (VObj owner) →
     cache w !! cache_key = Some (text, timeout) →
     run (ObjChunkNode.render self) w =
       (Returns text, log [EvCacheGet cache_key] w)).
Proof.
  split.
  - intros self w text timeout cache_key Hhit.
    by apply ChunkNode_run_hit with timeout.
  - intros self w owner text timeout cache_key Howner Hhit.
    by apply ObjChunkNode_run_hit with timeout.
Qed.

(** An old footer and an old byline sit in the cache: both are served
    from it. *)
Lemma cache_hit_returns_cached_text_witness :
  let w := with_cache {[ "chunk_footer" := ("old footer", 60);
                         "chunk_Article_42_byline" := ("old byline", 30) ]}
             Fixture.page in
  run (ChunkNode.render (H := Fixture.collaborators)
         (ChunkNode.__init__ "footer" (VInt 0))) w
    = (Returns "old footer", log [EvCacheGet "chunk_footer"] w)
  ∧ run (ObjChunkNode.render (H := Fixture.collaborators)
           (ObjChunkNode.Build_t "article" "byline" (VInt 0) None)) w
    = (Returns "old byline", log [EvCacheGet "chunk_Article_42_byline"] w).
Proof.
  intros w.
  destruct (cache_hit_returns_cached_text (H := Fixture.collaborators))
    as [Hglobal Hobject].
  split.
  - apply (Hglobal (ChunkNode.__init__ "footer" (VInt 0)) w "old footer" 60).
    vm_compute; reflexivity.
  - apply (Hobject (ObjChunkNode.Build_t "article" "byline" (VInt 0) None) w
             Fixture.article "old byline" 30); vm_compute; reflexivity.
Defined.

(** Read for every target name, C6 fails when the target is a variable
    that cannot be evaluated either: the page has no variable called
    author and none called nowhere; the target is resolved first, outside
    the [try], and its [VariableDoesNotExist] leaves [render] with
    nothing bound. *)
Lemma unresolved_target_name_propagates :
  Variable_resolve (H := Fixture.collaborators) "author"
    (context Fixture.page) = Raises VariableDoesNotExist
  ∧ do_get_object_chunks_list (H := Fixture.collaborators)
      ["object_chunks_list"; "author"; "nowhere"]
    = Returns {| ObjChunksListNode.obj := "author";
                 ObjChunksListNode.context_name := None;
                 ObjChunksListNode.context_name_var := Some "nowhere" |}
  ∧ run (ObjChunksListNode.render (H := Fixture.collaborators)
           {| ObjChunksListNode.obj := "author";
              ObjChunksListNode.context_name := None;
              ObjChunksListNode.context_name_var := Some "nowhere" |})
      Fixture.page
    = (Raises VariableDoesNotExist, Fixture.page).
Proof. repeat split; vm_compute; reflexivity. Qed.

(** C6, for a target name that evaluates.  An owner reference that
    cannot be evaluated is recovered from: [object_chunk] returns the
    empty string, touching nothing, and [object_chunks_list], whose target
    has resolved to a name, binds an empty mapping under that name and
    returns; neither raises. *)
Theorem unresolved_owner_is_recovered `{Collaborators} :
  (∀ (self : ObjChunkNode.t) (w : World),
     Variable_resolve (ObjChunkNode.obj self) (context w)
       = Raises VariableDoesNotExist →
     run (ObjChunkNode.render self) w = (Returns EmptyString, w))
  ∧
  (∀ (tag owner_ref target_name : string) (self : ObjChunksListNode.t)
     (w : World) (name : string),
     do_get_object_chunks_list [tag; owner_ref; target_name] = Returns self →
     Variable_resolve target_name (context w) = Returns (VStr name) →
     Variable_resolve owner_ref (context w) = Raises VariableDoesNotExist →
     run (ObjChunksListNode.render self) w =
       (Returns EmptyString,
        with_context (<[name := VDict ∅]> (context w)) w)).
Proof.
  split.
  - intros self w Howner. unfold ObjChunkNode.render. exec. by step Howner.
  - intros tag owner_ref target_name self w name Hnode Hname Howner.
    apply do_get_object_chunks_list_node in Hnode as ->.
    by apply ObjChunksListNode_run_owner_unresolved.
Qed.

(** The page has no variable called [author]. *)
Lemma unresolved_owner_is_recovered_witness :
  run (ObjChunkNode.render (H := Fixture.collaborators)
         (ObjChunkNode.Build_t "author" "byline" (VInt 0) None)) Fixture.page
    = (Returns EmptyString, Fixture.page)
  ∧ run (ObjChunksListNode.render (H := Fixture.collaborators)
           {| ObjChunksListNode.obj := "author";
              ObjChunksListNode.context_name := None;
              ObjChunksListNode.context_name_var := Some "slot" |})
        Fixture.page
    = (Returns EmptyString,
       with_context (<["sidebar" := VDict ∅]> (context Fixture.page))
         Fixture.page).
Proof.
  destruct (unresolved_owner_is_recovered (H := Fixture.collaborators))
    as [Hobject Hlist].
  split.
  - apply (Hobject (ObjChunkNode.Build_t "author" "byline" (VInt 0) None)
             Fixture.page).
    vm_compute; reflexivity.
  - apply (Hlist "object_chunks_list" "author" "slot" _ Fixture.page
             "sidebar"); vm_compute; reflexivity.
Defined.

(** C7.  A [chunk] tag reads and writes the cache under
    [CACHE_PREFIX ++ key] and under no other key, with no owner
    component, however the call ends.  When it misses the cache, finds
    its Chunk and returns, it has rendered the chunk, stored the rendered
    text under that key with the timeout [int(cache_time)], and returned
    it (the empty string of the handler apart, when [build_content]
    itself raised [Chunk.DoesNotExist]).  And it does so when the context
    holds a request, [build_content] returns and the cache time
    converts. *)
Theorem ChunkNode_render_miss_populates_cache `{Collaborators}
    (self : ChunkNode.t) (w : World) :
  let cache_key := CACHE_PREFIX ++ ChunkNode.key self in
  (∃ evs, trace (run (ChunkNode.render self) w).2 = (trace w ++ evs)%list
          ∧ ∀ ev k, ev ∈ evs → cache_key_of ev = Some k → k = cache_key)
  ∧
  (∀ (c : Chunk.t) (text : string) (w' : World),
     cache w !! cache_key = None →
     Chunk_lookup (store w) (ChunkNode.key self) = Returns c →
     run (ChunkNode.render self) w = (Returns text, w') →
     let request := default VNone (context w !! "request") in
     truthy request = true
     ∧ ((∃ timeout,
           build_content (a_Chunk c) request (context w) = Returns text
           ∧ py_int (ChunkNode.cache_time self) = Returns timeout
           ∧ w' = log [EvCacheGet cache_key;
                       EvChunkGet (ChunkNode.key self);
                       EvBuildContent (a_Chunk c) request;
                       EvCacheSet cache_key text timeout]
                    (with_cache (<[cache_key := (text, timeout)]> (cache w))
                       w))
        ∨ (text = EmptyString
           ∧ build_content (a_Chunk c) request (context w)
             = Raises Chunk_DoesNotExist)))
  ∧
  (∀ (c : Chunk.t) (request : PyVal) (text : string) (timeout : Z),
     cache w !! cache_key = None →
     Chunk_lookup (store w) (ChunkNode.key self) = Returns c →
     context w !! "request" = Some request →
     truthy request = true →
     build_content (a_Chunk c) request (context w) = Returns text →
     py_int (ChunkNode.cache_time self) = Returns timeout →
     run (ChunkNode.render self) w =
       (Returns text,
        log [EvCacheGet cache_key;
             EvChunkGet (ChunkNode.key self);
             EvBuildContent (a_Chunk c) request;
             EvCacheSet cache_key text timeout]
          (with_cache (<[cache_key := (text, timeout)]> (cache w)) w))).
Proof.
  intros cache_key. split; [|split].
  - apply ChunkNode_run_cache_keys.
  - intros c text w' Hmiss Hfound Hrun.
    by apply ChunkNode_run_found_returns.
  - intros c request text timeout
      Hmiss Hfound Hrequest Htruthy Hrender Htimeout.
    by apply ChunkNode_run_rendered.
Qed.

(** The footer of the fixture site, cached for a minute. *)
Lemma ChunkNode_render_miss_populates_cache_witness :
  let node := ChunkNode.__init__ "footer" (VStr "60") in
  let w' := log [EvCacheGet "chunk_footer";
                 EvChunkGet "footer";
                 EvBuildContent (a_Chunk Fixture.footer) Fixture.request;
                 EvCacheSet "chunk_footer" "(c) Acme" 60]
              (with_cache (<["chunk_footer" := ("(c) Acme", 60)]> ∅)
                 Fixture.page) in
  (truthy Fixture.request = true
   ∧ ((∃ timeout,
         build_content (Collaborators := Fixture.collaborators)
           (a_Chunk Fixture.footer) Fixture.request (context Fixture.page)
           = Returns "(c) Acme"
         ∧ py_int (H := Fixture.collaborators) (VStr "60") = Returns timeout
         ∧ w' = log [EvCacheGet "chunk_footer";
                     EvChunkGet "footer";
                     EvBuildContent (a_Chunk Fixture.footer) Fixture.request;
                     EvCacheSet "chunk_footer" "(c) Acme" timeout]
                  (with_cache (<["chunk_footer" := ("(c) Acme", timeout)]> ∅)
                     Fixture.page))
      ∨ ("(c) Acme" = EmptyString
         ∧ build_content (Collaborators := Fixture.collaborators)
             (a_Chunk Fixture.footer) Fixture.request (context Fixture.page)
           = Raises Chunk_DoesNotExist)))
  ∧ run (ChunkNode.render (H := Fixture.collaborators) node) Fixture.page
    = (Returns "(c) Acme", w').
Proof.
  intros node w'.
  destruct (ChunkNode_render_miss_populates_cache
              (H := Fixture.collaborators) node Fixture.page)
    as (_ & Hreturned & Hrendered).
  split.
  - apply (Hreturned Fixture.footer "(c) Acme" w'); vm_compute; reflexivity.
  - apply (Hrendered Fixture.footer Fixture.request "(c) Acme" 60);
      vm_compute; reflexivity.
Defined.

(** C8.  An [object_chunks_list] tag whose owner resolves and whose
    [chunks] method returns a mapping binds exactly that mapping in the
    context, under the name its target resolves to, and touches nothing
    else: the one call made is [obj.chunks], so the cache is neither read
    nor written.  The name is what [template.Variable] makes of the target
    token, the text between the quotes for a quoted token and the value
    of the variable otherwise; the node never strips the quotes itself
    (see [quotes_never_match]). *)
Theorem ObjChunksListNode_render_binds_mapping `{Collaborators}
    (tag owner_ref target_name : string) (self : ObjChunksListNode.t)
    (w : World) (name : string) (owner : Owner.t) (request : PyVal)
    (mapping : gmap string string) :
  do_get_object_chunks_list [tag; owner_ref; target_name] = Returns self →
  Variable_resolve target_name (context w) = Returns (VStr name) →
  Variable_resolve owner_ref (context w) = Returns (VObj owner) →
  context w !! "request" = Some request →
  truthy request = true →
  chunks owner request (context w) = Returns mapping →
  run (ObjChunksListNode.render self) w =
    (Returns EmptyString,
     log [EvChunks owner request]
       (with_context (<[name := VDict mapping]> (context w)) w)).
Proof.
  intros Hnode Hname Howner Hrequest Htruthy Hchunks.
  apply do_get_object_chunks_list_node in Hnode as ->.
  by apply ObjChunksListNode_run_bound.
Qed.

(** The chunks of the article, once under a quoted name and once under
    the name the variable [slot] holds. *)
Lemma ObjChunksListNode_render_binds_mapping_witness :
  (∃ self,
     do_get_object_chunks_list (H := Fixture.collaborators)
       ["object_chunks_list"; "article"; "'all'"]
       = Returns self
     ∧ run (ObjChunksListNode.render (H := Fixture.collaborators) self)
         Fixture.page
       = (Returns EmptyString,
          log [EvChunks Fixture.article Fixture.request]
            (with_context
               (<["all" := VDict {[ "byline" := "By J. Doe" ]}]>
                  (context Fixture.page)) Fixture.page)))
  ∧
  (∃ self,
     do_get_object_chunks_list (H := Fixture.collaborators)
       ["object_chunks_list"; "article"; "slot"]
       = Returns self
     ∧ run (ObjChunksListNode.render (H := Fixture.collaborators) self)
         Fixture.page
       = (Returns EmptyString,
          log [EvChunks Fixture.article Fixture.request]
            (with_context
               (<["sidebar" := VDict {[ "byline" := "By J. Doe" ]}]>
                  (context Fixture.page)) Fixture.page))).
Proof.
  split; eexists; (split; [reflexivity|]).
  - apply (ObjChunksListNode_render_binds_mapping
             (H := Fixture.collaborators)
             "object_chunks_list" "article" "'all'" _ Fixture.page "all"
             Fixture.article Fixture.request {[ "byline" := "By J. Doe" ]});
      vm_compute; reflexivity.
  - apply (ObjChunksListNode_render_binds_mapping
             (H := Fixture.collaborators)
             "object_chunks_list" "article" "slot" _ Fixture.page "sidebar"
             Fixture.article Fixture.request {[ "byline" := "By J. Doe" ]});
      vm_compute; reflexivity.
Defined.

(** C9.  The miss test is [content is None], not emptiness.  In every
    [chunk] or [object_chunk] call in which [build_content] is called and
    returns the empty string, that empty string is stored in the cache
    under the cache key of the tag, with the timeout the [cache_time]
    attribute converts to, and returned.  The same tag rendered again
    within that timeout, [seconds] later with [0 ≤ seconds < timeout],
    finds the entry and returns it after the cache read alone, with no
    lookup in the store.  (A chunk that is not found is not cached, see
    C2.) *)
Theorem empty_render_is_cached `{Collaborators} :
  (∀ (self : ChunkNode.t) (w : World) (evs : list Event) (c : AnyChunk)
     (request : PyVal) (timeout : Z),
     let cache_key := CACHE_PREFIX ++ ChunkNode.key self in
     trace (run (ChunkNode.render self) w).2 = (trace w ++ evs)%list →
     EvBuildContent c request ∈ evs →
     build_content c request (context w) = Returns EmptyString →
     py_int (ChunkNode.cache_time self) = Returns timeout →
     ∃ w1, run (ChunkNode.render self) w = (Returns EmptyString, w1)
           ∧ cache w1 = <[cache_key := (EmptyString, timeout)]> (cache w)
           ∧ ∀ seconds : Z,
               0 ≤ seconds < timeout →
               run (ChunkNode.render self) (later seconds w1) =
                 (Returns EmptyString,
                  log [EvCacheGet cache_key] (later seconds w1)))
  ∧
  (∀ (self : ObjChunkNode.t) (w : World) (evs : list Event) (c : AnyChunk)
     (request : PyVal) (timeout : Z),
     trace (run (ObjChunkNode.render self) w).2 = (trace w ++ evs)%list →
     EvBuildContent c request ∈ evs →
     build_content c request (context w) = Returns EmptyString →
     py_int (ObjChunkNode.cache_time self) = Returns timeout →
     ∃ owner w1,
       let cache_key := chunk_item_cache_key owner (ObjChunkNode.key self) in
       Variable_resolve (ObjChunkNode.obj self) (context w)
         = Returns (VObj owner)
       ∧ run (ObjChunkNode.render self) w = (Returns EmptyString, w1)
       ∧ cache w1 = <[cache_key := (EmptyString, timeout)]> (cache w)
       ∧ ∀ seconds : Z,
           0 ≤ seconds < timeout →
           run (ObjChunkNode.render self) (later seconds w1) =
             (Returns EmptyString,
              log [EvCacheGet cache_key] (later seconds w1))).
Proof.
  split.
  - intros self w evs c request timeout cache_key
      Htrace Hin Hrender Htimeout.
    destruct (ChunkNode_rendered_inversion _ _ _ _ _ Htrace Hin)
      as (Hmiss & (row & -> & Hfound) & Hrequest & Htruthy).
    apply request_in_context in Hrequest; [|done].
    eexists. split; [by apply ChunkNode_run_rendered|].
    split; [reflexivity|].
    intros seconds Hwithin.
    apply ChunkNode_run_hit with (timeout - seconds).
    apply later_live; [lia|]. simpl. apply lookup_insert_eq.
  - intros self w evs c request timeout Htrace Hin Hrender Htimeout.
    destruct (ObjChunkNode_rendered_inversion _ _ _ _ _ Htrace Hin)
      as (owner & Howner & Hmiss & Hrequest & Htruthy & Hfound).
    apply request_in_context in Hrequest; [|done].
    exists owner.
    destruct Hfound as [(row & -> & Hfound)
                       |(default_key & row & -> & Hnone & Hgiven & Hdefault
                         & Hfound)].
    + eexists. split; [done|].
      split; [by apply ObjChunkNode_run_inline_rendered|].
      split; [reflexivity|].
      intros seconds Hwithin.
      apply ObjChunkNode_run_hit with (timeout - seconds);
        [exact Howner|].
      apply later_live; [lia|]. simpl. apply lookup_insert_eq.
    + eexists. split; [done|].
      split; [by eapply ObjChunkNode_run_default_rendered|].
      split; [reflexivity|].
      intros seconds Hwithin.
      apply ObjChunkNode_run_hit with (timeout - seconds);
        [exact Howner|].
      apply later_live; [lia|]. simpl. apply lookup_insert_eq.
Qed.

(** The blank chunk, the blank teaser of the article, and the blank chunk
    as the default of a key the article has no chunk for, each rendered
    again before its timeout has run out. *)
Lemma empty_render_is_cached_witness :
  let blank_node := ChunkNode.__init__ "blank" (VStr "60") in
  let teaser_node :=
    ObjChunkNode.Build_t "article" "teaser" (VStr "300") None in
  let sidebar_node :=
    ObjChunkNode.Build_t "article" "sidebar" (VStr "5") (Some "blank") in
  (∃ w1, run (ChunkNode.render (H := Fixture.collaborators) blank_node)
           Fixture.page = (Returns EmptyString, w1)
         ∧ cache w1 = <["chunk_blank" := (EmptyString, 60)]> ∅
         ∧ run (ChunkNode.render (H := Fixture.collaborators) blank_node)
             (later 30 w1)
           = (Returns EmptyString,
              log [EvCacheGet "chunk_blank"] (later 30 w1)))
  ∧
  (∃ w1, run (ObjChunkNode.render (H := Fixture.collaborators) teaser_node)
           Fixture.page = (Returns EmptyString, w1)
         ∧ cache w1 = <["chunk_Article_42_teaser" := (EmptyString, 300)]> ∅
         ∧ run (ObjChunkNode.render (H := Fixture.collaborators) teaser_node)
             (later 0 w1)
           = (Returns EmptyString,
              log [EvCacheGet "chunk_Article_42_teaser"] (later 0 w1)))
  ∧
  (∃ w1, run (ObjChunkNode.render (H := Fixture.collaborators) sidebar_node)
           Fixture.page = (Returns EmptyString, w1)
         ∧ cache w1 = <["chunk_Article_42_sidebar" := (EmptyString, 5)]> ∅
         ∧ run (ObjChunkNode.render (H := Fixture.collaborators) sidebar_node)
             (later 4 w1)
           = (Returns EmptyString,
              log [EvCacheGet "chunk_Article_42_sidebar"] (later 4 w1))).
Proof.
  intros blank_node teaser_node sidebar_node.
  destruct (empty_render_is_cached (H := Fixture.collaborators))
    as [Hglobal Hobject].
  split; [|split].
  - destruct (Hglobal blank_node Fixture.page
                [EvCacheGet "chunk_blank"; EvChunkGet "blank";
                 EvBuildContent (a_Chunk Fixture.blank) Fixture.request;
                 EvCacheSet "chunk_blank" EmptyString 60]
                (a_Chunk Fixture.blank) Fixture.request 60)
      as (w1 & Hrun & Hcache & Hagain);
      [vm_compute; reflexivity | repeat constructor
      | vm_compute; reflexivity | vm_compute; reflexivity |].
    exists w1. split; [exact Hrun|]. split; [exact Hcache|].
    apply (Hagain 30). lia.
  - destruct (Hobject teaser_node Fixture.page
                [EvCacheGet "chunk_Article_42_teaser";
                 EvInlineChunkGet 7 42 "teaser";
                 EvBuildContent (an_InlineChunk Fixture.teaser)
                   Fixture.request;
                 EvCacheSet "chunk_Article_42_teaser" EmptyString 300]
                (an_InlineChunk Fixture.teaser) Fixture.request 300)
      as (owner & w1 & Howner & Hrun & Hcache & Hagain);
      [vm_compute; reflexivity | repeat constructor
      | vm_compute; reflexivity | vm_compute; reflexivity |].
    assert (owner = Fixture.article) as ->
      by (vm_compute in Howner; by injection Howner as <-).
    exists w1. split; [exact Hrun|]. split; [exact Hcache|].
    apply (Hagain 0). lia.
  - destruct (Hobject sidebar_node Fixture.page
                [EvCacheGet "chunk_Article_42_sidebar";
                 EvInlineChunkGet 7 42 "sidebar";
                 EvChunkGet "blank";
                 EvBuildContent (a_Chunk Fixture.blank) Fixture.request;
                 EvCacheSet "chunk_Article_42_sidebar" EmptyString 5]
                (a_Chunk Fixture.blank) Fixture.request 5)
      as (owner & w1 & Howner & Hrun & Hcache & Hagain);
      [vm_compute; reflexivity | repeat constructor
      | vm_compute; reflexivity | vm_compute; reflexivity |].
    assert (owner = Fixture.article) as ->
      by (vm_compute in Howner; by injection Howner as <-).
    exists w1. split; [exact Hrun|]. split; [exact Hcache|].
    apply (Hagain 4). lia.
Defined.

(** C10.  An [object_chunks_list] tag that does not raise renders as the
    empty string, whether the owner resolved or not.  What it leaves
    behind is the binding in the context: the cache and the store are
    what they were, and the context differs by at most one name, bound
    to a mapping. *)
Theorem ObjChunksListNode_render_returns_empty_string `{Collaborators}
    (self : ObjChunksListNode.t) (w w' : World) (output : string) :
  run (ObjChunksListNode.render self) w = (Returns output, w') →
  output = EmptyString
  ∧ cache w' = cache w
  ∧ store w' = store w
  ∧ (context w' = context w
     ∨ ∃ name mapping, context w' = <[name := VDict mapping]> (context w)).
Proof. apply ObjChunksListNode_run_returns. Qed.

(** The chunks of the article, bound under the name that [slot] holds. *)
Lemma ObjChunksListNode_render_returns_empty_string_witness :
  let node := {| ObjChunksListNode.obj := "article";
                 ObjChunksListNode.context_name := None;
                 ObjChunksListNode.context_name_var := Some "slot" |} in
  let w' := log [EvChunks Fixture.article Fixture.request]
              (with_context
                 (<["sidebar" := VDict {[ "byline" := "By J. Doe" ]}]>
                    (context Fixture.page)) Fixture.page) in
  run (ObjChunksListNode.render (H := Fixture.collaborators) node)
    Fixture.page = (Returns EmptyString, w')
  ∧ EmptyString = EmptyString
  ∧ cache w' = cache Fixture.page
  ∧ store w' = store Fixture.page
  ∧ (context w' = context Fixture.page
     ∨ ∃ name mapping,
         context w' = <[name := VDict mapping]> (context Fixture.page)).
Proof.
  intros node w'.
  assert (Hrun : run (ObjChunksListNode.render (H := Fixture.collaborators)
                        node) Fixture.page = (Returns EmptyString, w'))
    by (vm_compute; reflexivity).
  split; [exact Hrun|].
  exact (ObjChunksListNode_render_returns_empty_string
           (H := Fixture.collaborators) node Fixture.page w' EmptyString
           Hrun).
Defined.

(** * More of the module: compiling the tags *)

(** ** Quoted tokens *)

Lemma string_length_app (s t : string) :
  String.length (s ++ t) = (String.length s + String.length t)%nat.
Proof. induction s as [|a s IH]; simpl; [done | by rewrite IH]. Qed.

Lemma string_get_app_last (s : string) (a : ascii) :
  String.get (String.length s) (s ++ String a EmptyString) = Some a.
Proof. induction s as [|b s IH]; simpl; done. Qed.

Lemma string_substring_app (s t : string) :
  String.substring 0 (String.length s) (s ++ t) = s.
Proof.
  induction s as [|a s IH]; simpl; [by destruct t | by rewrite IH].
Qed.

(** A string that is not empty ends in a character. *)
Lemma string_snoc (a : ascii) (s : string) :
  ∃ init b, String a s = init ++ String b EmptyString.
Proof.
  revert a. induction s as [|c s IH]; intros a.
  - by exists EmptyString, a.
  - destruct (IH c) as (init & b & ->). by exists (String a init), b.
Qed.

(** [s[-1]] of a string that ends in [a]. *)
Lemma str_getitem_last (init : string) (a : ascii) :
  str_getitem (init ++ String a EmptyString) (-1)
    = Returns (String a EmptyString).
Proof.
  unfold str_getitem. rewrite string_length_app. simpl String.length.
  replace (-1 <? 0) with true by done.
  replace (Z.of_nat (String.length init + 1) + -1)
    with (Z.of_nat (String.length init)) by lia.
  replace (_ || _) with false.
  - by rewrite Nat2Z.id, string_get_app_last.
  - symmetry. apply orb_false_iff.
    split; [apply Z.ltb_ge | apply Z.leb_gt]; lia.
Qed.

(** [s[0]] of a string that starts with [a]. *)
Lemma str_getitem_first (a : ascii) (s : string) :
  str_getitem (String a s) 0 = Returns (String a EmptyString).
Proof.
  unfold str_getitem. change (0 <? 0) with false. cbv iota zeta.
  replace (_ || _) with false; [done|].
  symmetry. apply orb_false_iff. split; [done|].
  apply Z.leb_gt. simpl String.length. lia.
Qed.

Lemma is_quote_character (q : string) :
  is_quote q → ∃ a, q = String a EmptyString.
Proof. intros [-> | ->]; by eexists. Qed.

Lemma str_in_quotes (q : string) :
  str_in q [double_quote; single_quote] = true ↔ is_quote q.
Proof.
  unfold str_in, is_quote. simpl. rewrite orb_false_r, orb_true_iff.
  rewrite !String.eqb_eq. tauto.
Qed.

(** The quote check accepts a text between two quote characters of the
    same kind, and a quote character on its own. *)
Lemma properly_quoted_quoted (q body : string) :
  is_quote q → properly_quoted (quoted q body) = Returns true.
Proof.
  intros Hq. destruct (is_quote_character q Hq) as [a ->].
  unfold properly_quoted, quoted.
  change (String a EmptyString ++ body ++ String a EmptyString)
    with (String a (body ++ String a EmptyString)).
  rewrite str_getitem_first.
  change (String a (body ++ String a EmptyString))
    with (String a body ++ String a EmptyString).
  rewrite str_getitem_last. cbn -[String.eqb str_in].
  rewrite String.eqb_refl. apply str_in_quotes in Hq. by rewrite Hq.
Qed.

Lemma properly_quoted_lone_quote (q : string) :
  is_quote q → properly_quoted q = Returns true.
Proof. by intros [-> | ->]. Qed.

(** It accepts nothing else. *)
Lemma properly_quoted_inv (s : string) :
  properly_quoted s = Returns true → in_quotes s.
Proof.
  unfold in_quotes.
  destruct s as [|a s]; [done|].
  unfold properly_quoted. rewrite str_getitem_first.
  destruct s as [|b s].
  - change (String a EmptyString)
      with (EmptyString ++ String a EmptyString) at 1.
    rewrite str_getitem_last.
    cbn -[String.eqb str_in]. intros [= Hq].
    apply andb_prop in Hq as [_ Hq].
    exists (String a EmptyString). split; [|by left]. by apply str_in_quotes.
  - destruct (string_snoc b s) as (init & c & Hs). rewrite Hs.
    change (String a (init ++ String c EmptyString))
      with (String a init ++ String c EmptyString).
    rewrite str_getitem_last.
    cbn -[String.eqb str_in]. intros [= Hq].
    apply andb_prop in Hq as [Heq Hq].
    destruct (Ascii.eqb_spec a c) as [<-|]; [|done].
    exists (String a EmptyString). split; [by apply str_in_quotes|].
    right. by exists init.
Qed.

(** [s[1:-1]] gives back what is between the quotes. *)
Lemma str_strip_ends_quoted (q body : string) :
  is_quote q → str_strip_ends (quoted q body) = body.
Proof.
  intros Hq. destruct (is_quote_character q Hq) as [a ->].
  unfold str_strip_ends, quoted.
  change (String a EmptyString ++ body ++ String a EmptyString)
    with (String a (body ++ String a EmptyString)).
  simpl String.length. rewrite string_length_app. simpl String.length.
  replace (S (String.length body + 1) - 2)%nat with (String.length body)
    by lia.
  simpl. apply string_substring_app.
Qed.

(** On a token that is not empty the check never raises, and it answers
    whether the token is in quotes. *)
Lemma properly_quoted_spec (s : string) :
  s ≠ EmptyString →
  (properly_quoted s = Returns true ∧ in_quotes s)
  ∨ (properly_quoted s = Returns false ∧ ¬ in_quotes s).
Proof.
  intros Hs.
  assert (Hdefined : ∃ b, properly_quoted s = Returns b).
  { destruct s as [|a s]; [done|].
    destruct (string_snoc a s) as (init & c & Hsnoc).
    unfold properly_quoted. rewrite str_getitem_first, Hsnoc.
    rewrite str_getitem_last. by eexists. }
  destruct Hdefined as [[|] Hb].
  - left. split; [done|]. by apply properly_quoted_inv.
  - right. split; [done|]. intros (q & Hq & [-> | [body ->]]).
    + by rewrite properly_quoted_lone_quote in Hb.
    + by rewrite properly_quoted_quoted in Hb.
Qed.

Lemma properly_quoted_not_in_quotes (s : string) :
  s ≠ EmptyString → ¬ in_quotes s → properly_quoted s = Returns false.
Proof.
  intros Hs Hnot. by destruct (properly_quoted_spec s Hs) as [[_ ?]|[? _]].
Qed.

Lemma str_strip_ends_lone_quote (q : string) :
  is_quote q → str_strip_ends q = EmptyString.
Proof. by intros [-> | ->]. Qed.

(** ** [do_get_chunk] *)

(** What [do_get_chunk] does with two and with three tokens. *)
Lemma do_get_chunk_two (tag key : string) :
  do_get_chunk [tag; key] =
    (quoted ← properly_quoted key;
     if negb quoted then
       Raises (TemplateSyntaxError (argument_should_be_in_quotes tag))
     else Returns (ChunkNode.__init__ (str_strip_ends key) (VInt 0))).
Proof. reflexivity. Qed.

Lemma do_get_chunk_three (tag key cache_time : string) :
  do_get_chunk [tag; key; cache_time] =
    (quoted ← properly_quoted key;
     if negb quoted then
       Raises (TemplateSyntaxError (argument_should_be_in_quotes tag))
     else Returns (ChunkNode.__init__ (str_strip_ends key) (VStr cache_time))).
Proof. reflexivity. Qed.

(** X1.  A [chunk] tag with no argument, or with three arguments or more,
    does not compile: [do_get_chunk] raises the [TemplateSyntaxError] that
    asks for 2 or 3 tokens, naming the tag. *)
Theorem do_get_chunk_rejects_other_lengths (tag : string)
    (rest : list string) :
  rest = [] ∨ (3 ≤ length rest)%nat →
  do_get_chunk (tag :: rest) =
    Raises (TemplateSyntaxError (chunk_should_have_2_or_3_arguments tag)).
Proof.
  intros [->|Hlong]; [reflexivity|].
  do 3 (destruct rest as [|? rest]; [simpl in Hlong; lia|]).
  unfold do_get_chunk.
  replace (_ || _) with true; [reflexivity|].
  symmetry. apply orb_true_iff. right. apply Z.gtb_lt.
  simpl length. lia.
Qed.

Lemma do_get_chunk_rejects_other_lengths_witness :
  do_get_chunk ["chunk"]
    = Raises (TemplateSyntaxError (chunk_should_have_2_or_3_arguments "chunk"))
  ∧ do_get_chunk ["chunk"; "'footer'"; "60"; "extra"]
    = Raises (TemplateSyntaxError (chunk_should_have_2_or_3_arguments "chunk")).
Proof.
  split.
  - apply (do_get_chunk_rejects_other_lengths "chunk" []). by left.
  - apply (do_get_chunk_rejects_other_lengths "chunk"
             ["'footer'"; "60"; "extra"]).
    right. simpl. lia.
Defined.

(** X2.  The key of a [chunk] tag is what stands between the quotes: a
    key token in matching single or double quotes compiles to a node with
    the text between them as its key, with cache time 0 when the tag
    gives none and the cache-time token, unconverted, when it gives one.
    A quote character on its own passes for a quoted key and compiles to
    the empty key. *)
Theorem do_get_chunk_strips_the_quotes (tag q body : string) :
  is_quote q →
  do_get_chunk [tag; quoted q body]
    = Returns {| ChunkNode.key := body; ChunkNode.cache_time := VInt 0 |}
  ∧ (∀ cache_time : string,
       do_get_chunk [tag; quoted q body; cache_time]
         = Returns {| ChunkNode.key := body;
                      ChunkNode.cache_time := VStr cache_time |})
  ∧ do_get_chunk [tag; q]
    = Returns {| ChunkNode.key := EmptyString;
                 ChunkNode.cache_time := VInt 0 |}.
Proof.
  intros Hq. split; [|split].
  - rewrite do_get_chunk_two, properly_quoted_quoted by done.
    cbn. by rewrite str_strip_ends_quoted.
  - intros cache_time.
    rewrite do_get_chunk_three, properly_quoted_quoted by done.
    cbn. by rewrite str_strip_ends_quoted.
  - rewrite do_get_chunk_two, properly_quoted_lone_quote by done.
    cbn. by rewrite str_strip_ends_lone_quote.
Qed.

Lemma do_get_chunk_strips_the_quotes_witness :
  do_get_chunk ["chunk"; quoted double_quote "footer"]
    = Returns {| ChunkNode.key := "footer"; ChunkNode.cache_time := VInt 0 |}
  ∧ do_get_chunk ["chunk"; quoted double_quote "footer"; "60"]
    = Returns {| ChunkNode.key := "footer";
                 ChunkNode.cache_time := VStr "60" |}
  ∧ do_get_chunk ["chunk"; double_quote]
    = Returns {| ChunkNode.key := EmptyString;
                 ChunkNode.cache_time := VInt 0 |}.
Proof.
  destruct (do_get_chunk_strips_the_quotes "chunk" double_quote "footer")
    as (Htwo & Hthree & Hlone); [by right|].
  split; [exact Htwo|]. split; [exact (Hthree "60") | exact Hlone].
Defined.

(** X3.  With two or three tokens, [do_get_chunk] raises the
    [TemplateSyntaxError] that asks for quotes exactly when the key token
    is not in quotes: when it does not start and end with the same quote
    character. *)
Theorem do_get_chunk_needs_quotes (tag key : string) (rest : list string) :
  (length rest ≤ 1)%nat →
  key ≠ EmptyString →
  do_get_chunk (tag :: key :: rest)
    = Raises (TemplateSyntaxError (argument_should_be_in_quotes tag))
  ↔ ¬ in_quotes key.
Proof.
  intros Hrest Hkey.
  assert (Hequation : do_get_chunk (tag :: key :: rest) =
    (quoted ← properly_quoted key;
     if negb quoted then
       Raises (TemplateSyntaxError (argument_should_be_in_quotes tag))
     else Returns (ChunkNode.__init__ (str_strip_ends key)
                     (match rest with
                      | [] => VInt 0
                      | cache_time :: _ => VStr cache_time
                      end)))).
  { destruct rest as [|cache_time [|? rest]]; [done..|]. simpl in Hrest. lia. }
  rewrite Hequation.
  destruct (properly_quoted_spec key Hkey) as [[-> Hin]|[-> Hnot]]; cbn.
  - split; [done|]. intros Hnot. by destruct Hnot.
  - done.
Qed.

Lemma do_get_chunk_needs_quotes_witness :
  do_get_chunk ["chunk"; "footer"; "60"]
    = Raises (TemplateSyntaxError (argument_should_be_in_quotes "chunk")).
Proof.
  apply (do_get_chunk_needs_quotes "chunk" "footer" ["60"]);
    [simpl; lia | done |].
  intros Hin.
  assert (Hq : properly_quoted "footer" = Returns true).
  { destruct Hin as (q & Hq & [-> | [body ->]]);
      [by apply properly_quoted_lone_quote | by apply properly_quoted_quoted]. }
  vm_compute in Hq. discriminate Hq.
Defined.

(** ** [do_get_object_chunk] *)

Lemma do_get_object_chunk_three `{Collaborators} (tag obj key : string) :
  do_get_object_chunk [tag; obj; key] =
    (quoted ← properly_quoted key;
     if negb quoted then
       Raises (TemplateSyntaxError (argument_should_be_in_quotes tag))
     else ObjChunkNode.__init__ obj (str_strip_ends key) (VInt 0) None).
Proof. reflexivity. Qed.

Lemma do_get_object_chunk_four `{Collaborators}
    (tag obj key cache_time : string) :
  do_get_object_chunk [tag; obj; key; cache_time] =
    (quoted ← properly_quoted key;
     if negb quoted then
       Raises (TemplateSyntaxError (argument_should_be_in_quotes tag))
     else ObjChunkNode.__init__ obj (str_strip_ends key) (VStr cache_time)
            None).
Proof. reflexivity. Qed.

(** With five tokens the default is checked, and stripped, before the key
    is looked at. *)
Lemma do_get_object_chunk_five `{Collaborators}
    (tag obj key cache_time default : string) :
  do_get_object_chunk [tag; obj; key; cache_time; default] =
    (default_quoted ← properly_quoted default;
     if negb default_quoted then
       Raises (TemplateSyntaxError default_chunk_argument_should_be_in_quotes)
     else
       quoted ← properly_quoted key;
       if negb quoted then
         Raises (TemplateSyntaxError (argument_should_be_in_quotes tag))
       else ObjChunkNode.__init__ obj (str_strip_ends key)
              (VStr cache_time) (Some (str_strip_ends default))).
Proof.
  unfold do_get_object_chunk. cbn -[properly_quoted str_strip_ends].
  by destruct (properly_quoted default) as [[|]|].
Qed.

(** [ObjChunkNode.__init__] returns the node when [template.Variable]
    accepts the owner token and raises what it raises otherwise. *)
Lemma ObjChunkNode_init_Returns `{Collaborators} (obj key : string)
    (cache_time : PyVal) (default_chunk : option string)
    (variable : TemplateContext → Outcome PyVal) :
  template_Variable obj = Returns variable →
  ObjChunkNode.__init__ obj key cache_time default_chunk =
    Returns {| ObjChunkNode.obj := obj; ObjChunkNode.key := key;
               ObjChunkNode.cache_time := cache_time;
               ObjChunkNode.default_chunk := default_chunk |}.
Proof. intros Hobj. unfold ObjChunkNode.__init__. by rewrite Hobj. Qed.

Lemma ObjChunkNode_init_Raises `{Collaborators} (obj key : string)
    (cache_time : PyVal) (default_chunk : option string) (e : Exn) :
  template_Variable obj = Raises e →
  ObjChunkNode.__init__ obj key cache_time default_chunk = Raises e.
Proof. intros Hobj. unfold ObjChunkNode.__init__. by rewrite Hobj. Qed.

(** X4.  The guard of [do_get_object_chunk] rejects a tag name on its own
    and more than five tokens with the [TemplateSyntaxError] that names
    the tag. *)
Theorem do_get_object_chunk_rejects_one_and_six `{Collaborators}
    (tag : string) (rest : list string) :
  rest = [] ∨ (5 ≤ length rest)%nat →
  do_get_object_chunk (tag :: rest) =
    Raises (TemplateSyntaxError
              (object_chunk_should_have_3_or_5_arguments tag)).
Proof. apply do_get_object_chunk_rejected_lengths. Qed.

Lemma do_get_object_chunk_rejects_one_and_six_witness :
  do_get_object_chunk (H := Fixture.collaborators) ["object_chunk"]
    = Raises (TemplateSyntaxError
                (object_chunk_should_have_3_or_5_arguments "object_chunk"))
  ∧ do_get_object_chunk (H := Fixture.collaborators)
      ["object_chunk"; "article"; "'byline'"; "60"; "'staff'"; "extra"]
    = Raises (TemplateSyntaxError
                (object_chunk_should_have_3_or_5_arguments "object_chunk")).
Proof.
  split.
  - apply (do_get_object_chunk_rejects_one_and_six
             (H := Fixture.collaborators) "object_chunk" []).
    by left.
  - apply (do_get_object_chunk_rejects_one_and_six
             (H := Fixture.collaborators) "object_chunk"
             ["article"; "'byline'"; "60"; "'staff'"; "extra"]).
    right. simpl. lia.
Defined.

(** X5.  An [object_chunk] tag with its key in quotes, and with its
    default in quotes when it has one, is handed to
    [ObjChunkNode.__init__], which builds the variable of the owner
    first.  When [template.Variable] accepts the owner token, the tag
    compiles to a node that holds the owner token, the key without its
    quotes and: cache time 0 and no default with three tokens; the
    cache-time token and no default with four; the cache-time token and
    the default without its quotes with five, where the default may use
    the other kind of quote.  When [template.Variable] raises on the
    owner token, compiling the tag raises that exception, with three,
    four and five tokens. *)
Theorem do_get_object_chunk_strips_the_quotes `{Collaborators}
    (tag obj q body : string) :
  is_quote q →
  (∀ variable : TemplateContext → Outcome PyVal,
     template_Variable obj = Returns variable →
     do_get_object_chunk [tag; obj; quoted q body]
       = Returns {| ObjChunkNode.obj := obj; ObjChunkNode.key := body;
                    ObjChunkNode.cache_time := VInt 0;
                    ObjChunkNode.default_chunk := None |}
     ∧ (∀ cache_time : string,
          do_get_object_chunk [tag; obj; quoted q body; cache_time]
            = Returns {| ObjChunkNode.obj := obj; ObjChunkNode.key := body;
                         ObjChunkNode.cache_time := VStr cache_time;
                         ObjChunkNode.default_chunk := None |})
     ∧ (∀ cache_time q' default : string,
          is_quote q' →
          do_get_object_chunk
            [tag; obj; quoted q body; cache_time; quoted q' default]
            = Returns {| ObjChunkNode.obj := obj; ObjChunkNode.key := body;
                         ObjChunkNode.cache_time := VStr cache_time;
                         ObjChunkNode.default_chunk := Some default |}))
  ∧ (∀ e : Exn,
       template_Variable obj = Raises e →
       do_get_object_chunk [tag; obj; quoted q body] = Raises e
       ∧ (∀ cache_time : string,
            do_get_object_chunk [tag; obj; quoted q body; cache_time]
              = Raises e)
       ∧ (∀ cache_time q' default : string,
            is_quote q' →
            do_get_object_chunk
              [tag; obj; quoted q body; cache_time; quoted q' default]
              = Raises e)).
Proof.
  intros Hq. split.
  - intros variable Hobj. split; [|split].
    + rewrite do_get_object_chunk_three, properly_quoted_quoted by done.
      cbn. rewrite str_strip_ends_quoted by done.
      by apply ObjChunkNode_init_Returns with variable.
    + intros cache_time.
      rewrite do_get_object_chunk_four, properly_quoted_quoted by done.
      cbn. rewrite str_strip_ends_quoted by done.
      by apply ObjChunkNode_init_Returns with variable.
    + intros cache_time q' default Hq'.
      rewrite do_get_object_chunk_five, !properly_quoted_quoted by done.
      cbn. rewrite !str_strip_ends_quoted by done.
      by apply ObjChunkNode_init_Returns with variable.
  - intros e Hobj. split; [|split].
    + rewrite do_get_object_chunk_three, properly_quoted_quoted by done.
      cbn. by apply ObjChunkNode_init_Raises.
    + intros cache_time.
      rewrite do_get_object_chunk_four, properly_quoted_quoted by done.
      cbn. by apply ObjChunkNode_init_Raises.
    + intros cache_time q' default Hq'.
      rewrite do_get_object_chunk_five, !properly_quoted_quoted by done.
      cbn. by apply ObjChunkNode_init_Raises.
Qed.

(** The owner [article] is accepted; the owner [_article] begins with an
    underscore and is refused. *)
Lemma do_get_object_chunk_strips_the_quotes_witness :
  let refused :=
    Raises (TemplateSyntaxError
              (variables_may_not_begin_with_underscores "_article")) in
  (do_get_object_chunk (H := Fixture.collaborators)
     ["object_chunk"; "article"; quoted single_quote "byline"]
     = Returns {| ObjChunkNode.obj := "article";
                  ObjChunkNode.key := "byline";
                  ObjChunkNode.cache_time := VInt 0;
                  ObjChunkNode.default_chunk := None |}
   ∧ do_get_object_chunk (H := Fixture.collaborators)
       ["object_chunk"; "article"; quoted single_quote "byline"; "60"]
     = Returns {| ObjChunkNode.obj := "article";
                  ObjChunkNode.key := "byline";
                  ObjChunkNode.cache_time := VStr "60";
                  ObjChunkNode.default_chunk := None |}
   ∧ do_get_object_chunk (H := Fixture.collaborators)
       ["object_chunk"; "article"; quoted single_quote "byline"; "60";
        quoted double_quote "staff"]
     = Returns {| ObjChunkNode.obj := "article";
                  ObjChunkNode.key := "byline";
                  ObjChunkNode.cache_time := VStr "60";
                  ObjChunkNode.default_chunk := Some "staff" |})
  ∧ (do_get_object_chunk (H := Fixture.collaborators)
       ["object_chunk"; "_article"; quoted single_quote "byline"] = refused
     ∧ do_get_object_chunk (H := Fixture.collaborators)
         ["object_chunk"; "_article"; quoted single_quote "byline"; "60"]
       = refused
     ∧ do_get_object_chunk (H := Fixture.collaborators)
         ["object_chunk"; "_article"; quoted single_quote "byline"; "60";
          quoted double_quote "staff"]
       = refused).
Proof.
  intros refused. split.
  - destruct (do_get_object_chunk_strips_the_quotes
                (H := Fixture.collaborators) "object_chunk" "article"
                single_quote "byline") as [Haccepted _]; [by left|].
    destruct (Haccepted (Fixture.resolve_variable "article"))
      as (Hthree & Hfour & Hfive); [reflexivity|].
    split; [exact Hthree|]. split; [exact (Hfour "60")|].
    apply (Hfive "60" double_quote "staff"). by right.
  - destruct (do_get_object_chunk_strips_the_quotes
                (H := Fixture.collaborators) "object_chunk" "_article"
                single_quote "byline") as [_ Hrefused]; [by left|].
    destruct (Hrefused
                (TemplateSyntaxError
                   (variables_may_not_begin_with_underscores "_article")))
      as (Hthree & Hfour & Hfive); [reflexivity|].
    split; [exact Hthree|]. split; [exact (Hfour "60")|].
    apply (Hfive "60" double_quote "staff"). by right.
Defined.

(** X6.  With five tokens the default chunk is checked first: a default
    that is not in quotes raises its own [TemplateSyntaxError], whatever
    the key token is, in quotes or not. *)
Theorem do_get_object_chunk_checks_the_default_first `{Collaborators}
    (tag obj key cache_time default : string) :
  default ≠ EmptyString →
  ¬ in_quotes default →
  do_get_object_chunk [tag; obj; key; cache_time; default]
    = Raises (TemplateSyntaxError default_chunk_argument_should_be_in_quotes).
Proof.
  intros Hdefault Hnot.
  rewrite do_get_object_chunk_five.
  rewrite (properly_quoted_not_in_quotes default) by done. reflexivity.
Qed.

(** X7.  With three or four tokens, and with five tokens once the default
    is in quotes, [do_get_object_chunk] raises the [TemplateSyntaxError]
    that asks for quotes, naming the tag, when the key token is not in
    quotes. *)
Theorem do_get_object_chunk_needs_quotes `{Collaborators}
    (tag obj key : string) :
  key ≠ EmptyString →
  ¬ in_quotes key →
  let error :=
    Raises (TemplateSyntaxError (argument_should_be_in_quotes tag)) in
  do_get_object_chunk [tag; obj; key] = error
  ∧ (∀ cache_time, do_get_object_chunk [tag; obj; key; cache_time] = error)
  ∧ (∀ cache_time default,
       in_quotes default →
       do_get_object_chunk [tag; obj; key; cache_time; default] = error).
Proof.
  intros Hkey Hnot error. split; [|split].
  - rewrite do_get_object_chunk_three.
    rewrite (properly_quoted_not_in_quotes key) by done. reflexivity.
  - intros cache_time. rewrite do_get_object_chunk_four.
    rewrite (properly_quoted_not_in_quotes key) by done. reflexivity.
  - intros cache_time default (q & Hq & [-> | [body ->]]);
      rewrite do_get_object_chunk_five;
      [rewrite (properly_quoted_lone_quote q) by exact Hq
      |rewrite (properly_quoted_quoted q body) by exact Hq];
      cbn -[properly_quoted];
      rewrite (properly_quoted_not_in_quotes key) by assumption;
      reflexivity.
Qed.

(** A word without quotes is not in quotes. *)
Lemma not_in_quotes (s : string) :
  properly_quoted s = Returns false → ¬ in_quotes s.
Proof.
  intros Hs (q & Hq & [-> | [body ->]]).
  - by rewrite properly_quoted_lone_quote in Hs.
  - by rewrite properly_quoted_quoted in Hs.
Qed.

Lemma do_get_object_chunk_checks_the_default_first_witness :
  do_get_object_chunk (H := Fixture.collaborators)
    ["object_chunk"; "article"; "byline"; "60"; "staff"]
    = Raises (TemplateSyntaxError default_chunk_argument_should_be_in_quotes).
Proof.
  apply (do_get_object_chunk_checks_the_default_first
           (H := Fixture.collaborators)
           "object_chunk" "article" "byline" "60" "staff"); [done|].
  apply not_in_quotes. vm_compute; reflexivity.
Defined.

Lemma do_get_object_chunk_needs_quotes_witness :
  let error :=
    Raises (TemplateSyntaxError (argument_should_be_in_quotes "object_chunk"))
  in
  do_get_object_chunk (H := Fixture.collaborators)
    ["object_chunk"; "article"; "byline"] = error
  ∧ do_get_object_chunk (H := Fixture.collaborators)
      ["object_chunk"; "article"; "byline"; "60"] = error
  ∧ do_get_object_chunk (H := Fixture.collaborators)
      ["object_chunk"; "article"; "byline"; "60"; quoted single_quote "staff"]
    = error.
Proof.
  intros error.
  destruct (do_get_object_chunk_needs_quotes (H := Fixture.collaborators)
              "object_chunk" "article" "byline")
    as (Hthree & Hfour & Hfive);
    [done | apply not_in_quotes; vm_compute; reflexivity |].
  split; [exact Hthree|]. split; [exact (Hfour "60")|].
  apply (Hfive "60"). exists single_quote. split; [by left|]. right.
  by exists "staff".
Defined.

(** ** [do_get_object_chunks_list] *)

(** X8.  An [object_chunks_list] tag that does not have exactly three
    tokens does not compile: [do_get_object_chunks_list] raises the
    [TemplateSyntaxError] that names the tag. *)
Theorem do_get_object_chunks_list_rejects_other_lengths `{Collaborators}
    (tag : string) (rest : list string) :
  length rest ≠ 2%nat →
  do_get_object_chunks_list (tag :: rest) =
    Raises (TemplateSyntaxError
              (object_chunks_list_should_have_only_2_arguments tag)).
Proof.
  intros Hrest. unfold do_get_object_chunks_list.
  replace (negb _) with true; [reflexivity|].
  symmetry. apply negb_true_iff, Z.eqb_neq. simpl length. lia.
Qed.

Lemma do_get_object_chunks_list_rejects_other_lengths_witness :
  do_get_object_chunks_list (H := Fixture.collaborators)
    ["object_chunks_list"; "article"]
    = Raises (TemplateSyntaxError
                (object_chunks_list_should_have_only_2_arguments
                   "object_chunks_list")).
Proof.
  apply (do_get_object_chunks_list_rejects_other_lengths
           (H := Fixture.collaborators) "object_chunks_list" ["article"]).
  simpl. lia.
Defined.

(** A string of two characters or more has a second character. *)
Lemma str_getitem_second (s : string) :
  (2 ≤ String.length s)%nat →
  ∃ c, str_getitem s 1 = Returns c.
Proof.
  destruct s as [|a [|b s]]; simpl; [lia..|]. intros _.
  exists (String b EmptyString). unfold str_getitem.
  change (1 <? 0) with false. cbv iota zeta.
  replace (_ || _) with false; [done|].
  symmetry. apply orb_false_iff. split; [done|].
  apply Z.leb_gt. simpl String.length. lia.
Qed.

(** What [ObjChunksListNode.__init__] does once [template.Variable] has
    accepted the owner, by the length of the target. *)
Lemma ObjChunksListNode_init_long `{Collaborators}
    (owner_ref target_name : string)
    (variable : TemplateContext → Outcome PyVal) :
  template_Variable owner_ref = Returns variable →
  (2 ≤ String.length target_name)%nat →
  ObjChunksListNode.__init__ owner_ref (Some target_name) =
    (_ ← template_Variable target_name;
     Returns {| ObjChunksListNode.obj := owner_ref;
                ObjChunksListNode.context_name := None;
                ObjChunksListNode.context_name_var := Some target_name |}).
Proof.
  intros Howner Hlong. destruct (str_getitem_second _ Hlong) as [c Hc].
  unfold ObjChunksListNode.__init__. rewrite Howner, Hc. cbn -[str_in].
  by rewrite (quotes_never_match _ _ _ Hc).
Qed.

Lemma ObjChunksListNode_init_short `{Collaborators}
    (owner_ref target_name : string)
    (variable : TemplateContext → Outcome PyVal) :
  template_Variable owner_ref = Returns variable →
  (String.length target_name < 2)%nat →
  ObjChunksListNode.__init__ owner_ref (Some target_name) = Raises IndexError.
Proof.
  intros Howner Hshort. unfold ObjChunksListNode.__init__. rewrite Howner.
  destruct target_name as [|a [|b s]]; [done..|].
  simpl in Hshort. lia.
Qed.

(** X9.  With three tokens, [do_get_object_chunks_list] never strips the
    quotes of the target itself.  [template.Variable] is called on the
    owner token first: what it raises is raised, whatever the target.
    Once the owner is accepted, a target shorter than two characters
    raises [IndexError], because the test of the quotes subscripts the
    second character; a target of two characters or more, quoted or
    not, is handed whole to [template.Variable], because the test
    compares that character with a two-character string: when it is
    accepted the node holds the whole target as its variable, and when
    it is not, what [template.Variable] raises is raised. *)
Theorem do_get_object_chunks_list_keeps_the_target `{Collaborators}
    (tag owner_ref target_name : string) :
  let compiled := do_get_object_chunks_list [tag; owner_ref; target_name] in
  (∀ e : Exn, template_Variable owner_ref = Raises e → compiled = Raises e)
  ∧ (∀ variable : TemplateContext → Outcome PyVal,
       template_Variable owner_ref = Returns variable →
       ((String.length target_name < 2)%nat → compiled = Raises IndexError)
       ∧ ((2 ≤ String.length target_name)%nat →
          (∀ target_variable : TemplateContext → Outcome PyVal,
             template_Variable target_name = Returns target_variable →
             compiled =
               Returns {| ObjChunksListNode.obj := owner_ref;
                          ObjChunksListNode.context_name := None;
                          ObjChunksListNode.context_name_var :=
                            Some target_name |})
          ∧ (∀ e : Exn,
               template_Variable target_name = Raises e →
               compiled = Raises e))).
Proof.
  intros compiled.
  change compiled
    with (ObjChunksListNode.__init__ owner_ref (Some target_name)).
  split.
  - intros e Howner. unfold ObjChunksListNode.__init__. by rewrite Howner.
  - intros variable Howner. split.
    + by apply ObjChunksListNode_init_short with variable.
    + intros Hlong.
      rewrite (ObjChunksListNode_init_long _ _ _ Howner Hlong).
      split.
      * intros target_variable Htarget. by rewrite Htarget.
      * intros e Htarget. by rewrite Htarget.
Qed.

(** A quoted target is kept with its quotes; a target of one character
    and a target or an owner that begins with an underscore do not
    compile. *)
Lemma do_get_object_chunks_list_keeps_the_target_witness :
  do_get_object_chunks_list (H := Fixture.collaborators)
    ["object_chunks_list"; "article"; quoted single_quote "all"]
    = Returns {| ObjChunksListNode.obj := "article";
                 ObjChunksListNode.context_name := None;
                 ObjChunksListNode.context_name_var :=
                   Some (quoted single_quote "all") |}
  ∧ do_get_object_chunks_list (H := Fixture.collaborators)
      ["object_chunks_list"; "article"; "x"]
    = Raises IndexError
  ∧ do_get_object_chunks_list (H := Fixture.collaborators)
      ["object_chunks_list"; "article"; "_all"]
    = Raises (TemplateSyntaxError
                (variables_may_not_begin_with_underscores "_all"))
  ∧ do_get_object_chunks_list (H := Fixture.collaborators)
      ["object_chunks_list"; "_article"; "x"]
    = Raises (TemplateSyntaxError
                (variables_may_not_begin_with_underscores "_article")).
Proof.
  destruct (do_get_object_chunks_list_keeps_the_target
              (H := Fixture.collaborators) "object_chunks_list" "article"
              (quoted single_quote "all")) as [_ Hquoted].
  destruct (do_get_object_chunks_list_keeps_the_target
              (H := Fixture.collaborators) "object_chunks_list" "article"
              "x") as [_ Hshort].
  destruct (do_get_object_chunks_list_keeps_the_target
              (H := Fixture.collaborators) "object_chunks_list" "article"
              "_all") as [_ Hunderscore].
  destruct (do_get_object_chunks_list_keeps_the_target
              (H := Fixture.collaborators) "object_chunks_list" "_article"
              "x") as [Howner _].
  split; [|split; [|split]].
  - destruct (Hquoted (Fixture.resolve_variable "article"))
      as [_ Hlong]; [reflexivity|].
    destruct Hlong as [Haccepted _]; [simpl; lia|].
    by apply (Haccepted
                (Fixture.resolve_variable (quoted single_quote "all"))).
  - destruct (Hshort (Fixture.resolve_variable "article"))
      as [Hindex _]; [reflexivity|].
    apply Hindex. simpl. lia.
  - destruct (Hunderscore (Fixture.resolve_variable "article"))
      as [_ Hlong]; [reflexivity|].
    destruct Hlong as [_ Hrefused]; [simpl; lia|].
    by apply Hrefused.
  - by apply Howner.
Defined.

(** * More of the module: rendering *)

(** ** What a render leaves alone *)

(** X10.  Whatever the node, the world and the way the call ends, a
    [chunk] tag leaves the store and the context as they were, only adds
    to the trace, and leaves every cache entry under another key than
    [CACHE_PREFIX ++ key] as it was. *)
Theorem ChunkNode_render_frame `{Collaborators} (self : ChunkNode.t)
    (w : World) :
  let w' := (run (ChunkNode.render self) w).2 in
  store w' = store w
  ∧ context w' = context w
  ∧ (∃ evs, trace w' = (trace w ++ evs)%list)
  ∧ (∀ k, k ≠ CACHE_PREFIX ++ ChunkNode.key self →
          cache w' !! k = cache w !! k).
Proof.
  unfold ChunkNode.render. exec.
  repeat case_match; simplify_eq; simpl; rewrite <- ?app_assoc;
    (split; [done|]); (split; [done|]); (split; [by eexists|]);
    intros k Hk; by rewrite ?lookup_insert_ne.
Qed.

(** X11.  An [object_chunk] tag leaves the store and the context as they
    were.  When its owner variable resolves to an owner of chunks, every
    call it makes to the cache is under that owner's key for the key of
    the tag, and every cache entry under another key is as it was; when
    the variable resolves to nothing of the kind, the world is not
    touched at all. *)
Theorem ObjChunkNode_render_frame `{Collaborators} (self : ObjChunkNode.t)
    (w : World) :
  let w' := (run (ObjChunkNode.render self) w).2 in
  store w' = store w
  ∧ context w' = context w
  ∧ (∀ owner,
       Variable_resolve (ObjChunkNode.obj self) (context w)
         = Returns (VObj owner) →
       let cache_key := chunk_item_cache_key owner (ObjChunkNode.key self) in
       (∃ evs,
          trace w' = (trace w ++ evs)%list
          ∧ ∀ ev k, ev ∈ evs → cache_key_of ev = Some k → k = cache_key)
       ∧ (∀ k, k ≠ cache_key → cache w' !! k = cache w !! k))
  ∧ ((∀ owner, Variable_resolve (ObjChunkNode.obj self) (context w)
                 ≠ Returns (VObj owner)) →
     w' = w).
Proof.
  unfold ObjChunkNode.render. exec.
  destruct (Variable_resolve _ _) as [obj|e] eqn:Hobj; simpl.
  2:{ destruct (is_Chunk_DoesNotExist_or_VariableDoesNotExist e); simpl;
        repeat split; done. }
  destruct obj as [| | |owner| |]; simpl;
    try (repeat split; try done; intros Hnone; by destruct (Hnone owner)).
  split; [|split; [|split]].
  - repeat case_match; simplify_eq; done.
  - repeat case_match; simplify_eq; done.
  - intros owner' [= <-]. split.
    + repeat case_match; simplify_eq; simpl; rewrite <- ?app_assoc;
        (eexists; split; [reflexivity|]);
        intros ev k Hin Hkey;
        repeat (apply elem_of_cons in Hin as [->|Hin];
                [simpl in Hkey; congruence|]);
        by apply elem_of_nil in Hin.
    + intros k Hk.
      repeat case_match; simplify_eq; simpl; by rewrite ?lookup_insert_ne.
  - intros Hnone. by destruct (Hnone owner).
Qed.

Lemma ChunkNode_render_frame_witness :
  let w := with_cache {[ "chunk_header" := ("Welcome", 60) ]} Fixture.page in
  let w' := (run (ChunkNode.render (H := Fixture.collaborators)
                    (ChunkNode.__init__ "footer" (VStr "60"))) w).2 in
  cache w' !! "chunk_header" = Some ("Welcome", 60)
  ∧ cache w' !! "chunk_footer" = Some ("(c) Acme", 60).
Proof.
  intros w w'. split; [|vm_compute; reflexivity].
  destruct (ChunkNode_render_frame (H := Fixture.collaborators)
              (ChunkNode.__init__ "footer" (VStr "60")) w)
    as (_ & _ & _ & Hother).
  etrans; [apply (Hother "chunk_header"); discriminate|].
  vm_compute; reflexivity.
Defined.

Lemma ObjChunkNode_render_frame_witness :
  let w := with_cache {[ "chunk_header" := ("Welcome", 60) ]} Fixture.page in
  let w' := (run (ObjChunkNode.render (H := Fixture.collaborators)
                    (ObjChunkNode.Build_t "article" "byline" (VInt 0) None))
               w).2 in
  let w'' := (run (ObjChunkNode.render (H := Fixture.collaborators)
                     (ObjChunkNode.Build_t "slot" "byline" (VInt 0) None))
                w).2 in
  cache w' !! "chunk_header" = Some ("Welcome", 60)
  ∧ cache w' !! "chunk_Article_42_byline" = Some ("By J. Doe", 0)
  ∧ w'' = w.
Proof.
  intros w w' w''.
  destruct (ObjChunkNode_render_frame (H := Fixture.collaborators)
              (ObjChunkNode.Build_t "article" "byline" (VInt 0) None) w)
    as (_ & _ & Howner & _).
  destruct (Howner Fixture.article) as [_ Hother]; [vm_compute; reflexivity|].
  split; [|split; [vm_compute; reflexivity|]].
  - etrans; [apply (Hother "chunk_header"); discriminate|].
    vm_compute; reflexivity.
  - destruct (ObjChunkNode_render_frame (H := Fixture.collaborators)
                (ObjChunkNode.Build_t "slot" "byline" (VInt 0) None) w)
      as (_ & _ & _ & Hnone).
    apply Hnone. intros owner. vm_compute. discriminate.
Defined.

(** ** The default chunk *)

(** X12.  An [object_chunk] tag that misses the cache, finds no
    InlineChunk and names a default that a Chunk has, renders that Chunk
    and returns its text.  The text is cached under the key of the owner
    for the key of the tag: nothing is read or written under the cache
    key of the default chunk itself. *)
Theorem ObjChunkNode_render_falls_back_to_default `{Collaborators}
    (self : ObjChunkNode.t) (w : World) (owner : Owner.t)
    (default_key : string) (c : Chunk.t) (request : PyVal) (text : string)
    (timeout : Z) :
  let cache_key := chunk_item_cache_key owner (ObjChunkNode.key self) in
  let model_type := get_for_model (Owner.class owner) in
  Variable_resolve (ObjChunkNode.obj self) (context w)
    = Returns (VObj owner) →
  cache w !! cache_key = None →
  InlineChunk_lookup (store w) model_type (Owner.id owner)
    (ObjChunkNode.key self) = Raises InlineChunk_DoesNotExist →
  truthy_opt (ObjChunkNode.default_chunk self) = true →
  ObjChunkNode.default_chunk self = Some default_key →
  Chunk_lookup (store w) default_key = Returns c →
  context w !! "request" = Some request →
  truthy request = true →
  build_content (a_Chunk c) request (context w) = Returns text →
  py_int (ObjChunkNode.cache_time self) = Returns timeout →
  run (ObjChunkNode.render self) w =
    (Returns text,
     log [EvCacheGet cache_key;
          EvInlineChunkGet model_type (Owner.id owner)
            (ObjChunkNode.key self);
          EvChunkGet default_key;
          EvBuildContent (a_Chunk c) request;
          EvCacheSet cache_key text timeout]
       (with_cache (<[cache_key := (text, timeout)]> (cache w)) w)).
Proof.
  intros cache_key model_type Howner Hmiss Hnone Hgiven Hdefault Hfound
    Hrequest Htruthy Hrender Htimeout.
  by eapply ObjChunkNode_run_default_rendered.
Qed.

Lemma ObjChunkNode_render_falls_back_to_default_witness :
  run (ObjChunkNode.render (H := Fixture.collaborators)
         (ObjChunkNode.Build_t "article" "sidebar" (VStr "5")
            (Some "byline_default"))) Fixture.page =
    (Returns "Staff",
     log [EvCacheGet "chunk_Article_42_sidebar";
          EvInlineChunkGet 7 42 "sidebar";
          EvChunkGet "byline_default";
          EvBuildContent (a_Chunk Fixture.byline_default) Fixture.request;
          EvCacheSet "chunk_Article_42_sidebar" "Staff" 5]
       (with_cache (<["chunk_Article_42_sidebar" := ("Staff", 5)]> ∅)
          Fixture.page)).
Proof.
  apply (ObjChunkNode_render_falls_back_to_default
           (H := Fixture.collaborators)
           (ObjChunkNode.Build_t "article" "sidebar" (VStr "5")
              (Some "byline_default"))
           Fixture.page Fixture.article "byline_default"
           Fixture.byline_default Fixture.request "Staff" 5);
    vm_compute; reflexivity.
Defined.

(** X13.  A default chunk given as two quote characters with nothing
    between them compiles to the empty default, which [render] takes for
    no default: on a miss without an InlineChunk the tag returns the
    empty string after the cache read and the InlineChunk lookup, and no
    Chunk is looked up. *)
Theorem empty_default_is_no_default `{Collaborators}
    (tag obj q body cache_time q' : string) (w : World) (owner : Owner.t) :
  is_quote q →
  is_quote q' →
  let cache_key := chunk_item_cache_key owner body in
  let model_type := get_for_model (Owner.class owner) in
  Variable_resolve obj (context w) = Returns (VObj owner) →
  cache w !! cache_key = None →
  InlineChunk_lookup (store w) model_type (Owner.id owner) body
    = Raises InlineChunk_DoesNotExist →
  ∃ node,
    do_get_object_chunk
      [tag; obj; quoted q body; cache_time; quoted q' EmptyString]
      = Returns node
    ∧ ObjChunkNode.default_chunk node = Some EmptyString
    ∧ run (ObjChunkNode.render node) w =
        (Returns EmptyString,
         log [EvCacheGet cache_key;
              EvInlineChunkGet model_type (Owner.id owner) body] w).
Proof.
  intros Hq Hq' cache_key model_type Howner Hmiss Hnone.
  destruct (Variable_resolve_Returns _ _ _ Howner) as (variable & Hobj & _).
  eexists. split; [|split].
  - rewrite do_get_object_chunk_five, !properly_quoted_quoted by done.
    cbn. rewrite !str_strip_ends_quoted by done.
    by apply ObjChunkNode_init_Returns with variable.
  - reflexivity.
  - by apply ObjChunkNode_run_no_default.
Qed.

Lemma empty_default_is_no_default_witness :
  ∃ node,
    do_get_object_chunk (H := Fixture.collaborators)
      ["object_chunk"; "article"; quoted single_quote "sidebar"; "60";
       quoted single_quote EmptyString] = Returns node
    ∧ ObjChunkNode.default_chunk node = Some EmptyString
    ∧ run (ObjChunkNode.render (H := Fixture.collaborators) node)
        Fixture.page =
        (Returns EmptyString,
         log [EvCacheGet "chunk_Article_42_sidebar";
              EvInlineChunkGet 7 42 "sidebar"] Fixture.page).
Proof.
  apply (empty_default_is_no_default (H := Fixture.collaborators)
           "object_chunk" "article" single_quote "sidebar" "60" single_quote
           Fixture.page Fixture.article);
    [by left | by left | vm_compute; reflexivity..].
Defined.

(** ** Rendering again *)

(** X14.  Whatever text [build_content] returns, in every [chunk] or
    [object_chunk] call in which it is called and the cache time
    converts, the text is returned and cached with that timeout.  The
    same tag rendered again [seconds] later is served from the cache
    while the timeout has not run out: it returns the same text after
    the cache read alone, with no lookup in the store, no second
    [build_content] and no second [cache.set].  Once the timeout has run
    out the entry is gone: the tag misses, looks the chunk up, renders
    it and caches it again.  With the default cache time 0 that is every
    later call. *)
Theorem second_render_is_served_from_the_cache `{Collaborators} :
  (∀ (self : ChunkNode.t) (w : World) (evs : list Event) (c : AnyChunk)
     (request : PyVal) (text : string) (timeout : Z),
     let cache_key := CACHE_PREFIX ++ ChunkNode.key self in
     trace (run (ChunkNode.render self) w).2 = (trace w ++ evs)%list →
     EvBuildContent c request ∈ evs →
     build_content c request (context w) = Returns text →
     py_int (ChunkNode.cache_time self) = Returns timeout →
     ∃ w1, run (ChunkNode.render self) w = (Returns text, w1)
           ∧ (∀ seconds : Z,
                0 ≤ seconds < timeout →
                run (ChunkNode.render self) (later seconds w1) =
                  (Returns text,
                   log [EvCacheGet cache_key] (later seconds w1)))
           ∧ (∀ seconds : Z,
                0 ≤ seconds →
                timeout ≤ seconds →
                let w2 := later seconds w1 in
                run (ChunkNode.render self) w2 =
                  (Returns text,
                   log [EvCacheGet cache_key;
                        EvChunkGet (ChunkNode.key self);
                        EvBuildContent c request;
                        EvCacheSet cache_key text timeout]
                     (with_cache
                        (<[cache_key := (text, timeout)]> (cache w2)) w2))))
  ∧
  (∀ (self : ObjChunkNode.t) (w : World) (evs : list Event) (c : AnyChunk)
     (request : PyVal) (text : string) (timeout : Z),
     trace (run (ObjChunkNode.render self) w).2 = (trace w ++ evs)%list →
     EvBuildContent c request ∈ evs →
     build_content c request (context w) = Returns text →
     py_int (ObjChunkNode.cache_time self) = Returns timeout →
     ∃ owner w1,
       let cache_key := chunk_item_cache_key owner (ObjChunkNode.key self) in
       Variable_resolve (ObjChunkNode.obj self) (context w)
         = Returns (VObj owner)
       ∧ run (ObjChunkNode.render self) w = (Returns text, w1)
       ∧ (∀ seconds : Z,
            0 ≤ seconds < timeout →
            run (ObjChunkNode.render self) (later seconds w1) =
              (Returns text, log [EvCacheGet cache_key] (later seconds w1)))
       ∧ (∀ seconds : Z,
            0 ≤ seconds →
            timeout ≤ seconds →
            let r := run (ObjChunkNode.render self) (later seconds w1) in
            r.1 = Returns text
            ∧ cache r.2 =
                <[cache_key := (text, timeout)]> (cache (later seconds w1))
            ∧ ∃ lookups,
                trace r.2 =
                  (trace w1 ++ EvCacheGet cache_key :: lookups ++
                     [EvBuildContent c request;
                      EvCacheSet cache_key text timeout])%list)).
Proof.
  split.
  - intros self w evs c request text timeout cache_key
      Htrace Hin Hrender Htimeout.
    destruct (ChunkNode_rendered_inversion _ _ _ _ _ Htrace Hin)
      as (Hmiss & (row & -> & Hfound) & Hrequest & Htruthy).
    apply request_in_context in Hrequest; [|done].
    eexists. split; [by apply ChunkNode_run_rendered|]. split.
    + intros seconds Hwithin.
      apply ChunkNode_run_hit with (timeout - seconds).
      apply later_live; [lia|]. simpl. apply lookup_insert_eq.
    + intros seconds Hseconds Hexpired w2.
      apply (ChunkNode_run_rendered self w2); try done.
      apply later_expired with text timeout; [done|].
      simpl. apply lookup_insert_eq.
  - intros self w evs c request text timeout Htrace Hin Hrender Htimeout.
    destruct (ObjChunkNode_rendered_inversion _ _ _ _ _ Htrace Hin)
      as (owner & Howner & Hmiss & Hrequest & Htruthy & Hfound).
    apply request_in_context in Hrequest; [|done].
    exists owner.
    destruct Hfound as [(row & -> & Hfound)
                       |(default_key & row & -> & Hnone & Hgiven & Hdefault
                         & Hfound)].
    + eexists. split; [done|].
      split; [by apply ObjChunkNode_run_inline_rendered|]. split.
      * intros seconds Hwithin.
        apply ObjChunkNode_run_hit with (timeout - seconds);
          [exact Howner|].
        apply later_live; [lia|]. simpl. apply lookup_insert_eq.
      * intros seconds Hseconds Hexpired r. subst r.
        match goal with
        | |- context [later seconds ?w1] =>
            rewrite (ObjChunkNode_run_inline_rendered self (later seconds w1)
                       owner Howner) with (c := row) (request := request)
                       (text := text) (timeout := timeout); try done
        end.
        -- split; [done|]. split; [done|].
           exists [EvInlineChunkGet (get_for_model (Owner.class owner))
                     (Owner.id owner) (ObjChunkNode.key self)].
           reflexivity.
        -- apply later_expired with text timeout; [done|].
           simpl. apply lookup_insert_eq.
    + eexists. split; [done|].
      split; [by eapply ObjChunkNode_run_default_rendered|]. split.
      * intros seconds Hwithin.
        apply ObjChunkNode_run_hit with (timeout - seconds);
          [exact Howner|].
        apply later_live; [lia|]. simpl. apply lookup_insert_eq.
      * intros seconds Hseconds Hexpired r. subst r.
        match goal with
        | |- context [later seconds ?w1] =>
            rewrite (ObjChunkNode_run_default_rendered self
                       (later seconds w1) owner Howner)
              with (default_key := default_key) (c := row)
                   (request := request) (text := text) (timeout := timeout);
              try done
        end.
        -- split; [done|]. split; [done|].
           exists [EvInlineChunkGet (get_for_model (Owner.class owner))
                     (Owner.id owner) (ObjChunkNode.key self);
                   EvChunkGet default_key].
           reflexivity.
        -- apply later_expired with text timeout; [done|].
           simpl. apply lookup_insert_eq.
Qed.

(** The footer, cached for a minute, is served from the cache half a
    minute later and rendered again a minute later; the byline, with
    the default cache time 0, is rendered again at once. *)
Lemma second_render_is_served_from_the_cache_witness :
  let footer_node := ChunkNode.__init__ "footer" (VStr "60") in
  let byline_node := ObjChunkNode.Build_t "article" "byline" (VInt 0) None in
  (∃ w1, run (ChunkNode.render (H := Fixture.collaborators) footer_node)
           Fixture.page = (Returns "(c) Acme", w1)
         ∧ run (ChunkNode.render (H := Fixture.collaborators) footer_node)
             (later 30 w1)
           = (Returns "(c) Acme",
              log [EvCacheGet "chunk_footer"] (later 30 w1))
         ∧ run (ChunkNode.render (H := Fixture.collaborators) footer_node)
             (later 60 w1)
           = (Returns "(c) Acme",
              log [EvCacheGet "chunk_footer"; EvChunkGet "footer";
                   EvBuildContent (a_Chunk Fixture.footer) Fixture.request;
                   EvCacheSet "chunk_footer" "(c) Acme" 60]
                (with_cache
                   (<["chunk_footer" := ("(c) Acme", 60)]>
                      (cache (later 60 w1))) (later 60 w1))))
  ∧
  (∃ w1, run (ObjChunkNode.render (H := Fixture.collaborators) byline_node)
           Fixture.page = (Returns "By J. Doe", w1)
         ∧ let r := run (ObjChunkNode.render (H := Fixture.collaborators)
                           byline_node) (later 0 w1) in
           r.1 = Returns "By J. Doe"
           ∧ cache r.2 =
               <["chunk_Article_42_byline" := ("By J. Doe", 0)]>
                 (cache (later 0 w1))
           ∧ ∃ lookups,
               trace r.2 =
                 (trace w1 ++ EvCacheGet "chunk_Article_42_byline" ::
                    lookups ++
                    [EvBuildContent (an_InlineChunk Fixture.byline)
                       Fixture.request;
                     EvCacheSet "chunk_Article_42_byline" "By J. Doe" 0])%list).
Proof.
  intros footer_node byline_node.
  destruct (second_render_is_served_from_the_cache
              (H := Fixture.collaborators)) as [Hglobal Hobject].
  split.
  - destruct (Hglobal footer_node Fixture.page
                [EvCacheGet "chunk_footer"; EvChunkGet "footer";
                 EvBuildContent (a_Chunk Fixture.footer) Fixture.request;
                 EvCacheSet "chunk_footer" "(c) Acme" 60]
                (a_Chunk Fixture.footer) Fixture.request "(c) Acme" 60)
      as (w1 & Hrun & Hwithin & Hafter);
      [vm_compute; reflexivity | repeat constructor
      | vm_compute; reflexivity | vm_compute; reflexivity |].
    exists w1. split; [exact Hrun|]. split.
    + apply (Hwithin 30). lia.
    + apply (Hafter 60); lia.
  - destruct (Hobject byline_node Fixture.page
                [EvCacheGet "chunk_Article_42_byline";
                 EvInlineChunkGet 7 42 "byline";
                 EvBuildContent (an_InlineChunk Fixture.byline)
                   Fixture.request;
                 EvCacheSet "chunk_Article_42_byline" "By J. Doe" 0]
                (an_InlineChunk Fixture.byline) Fixture.request
                "By J. Doe" 0)
      as (owner & w1 & Howner & Hrun & _ & Hafter);
      [vm_compute; reflexivity | repeat constructor
      | vm_compute; reflexivity | vm_compute; reflexivity |].
    assert (owner = Fixture.article) as ->
      by (vm_compute in Howner; by injection Howner as <-).
    exists w1. split; [exact Hrun|].
    apply (Hafter 0); lia.
Defined.

(** X15.  Not found is not remembered.  After a [chunk] tag found no
    Chunk on a miss, and after an [object_chunk] tag without default
    found no InlineChunk on a miss, the same tag rendered in the world
    that call left, with the chunk now in the store, looks it up, renders
    it and caches it. *)
Theorem chunk_created_later_is_rendered `{Collaborators} :
  (∀ (self : ChunkNode.t) (w : World) (s : ContentStore) (c : Chunk.t)
     (request : PyVal) (text : string) (timeout : Z),
     let cache_key := CACHE_PREFIX ++ ChunkNode.key self in
     let w1 :=
       log [EvCacheGet cache_key; EvChunkGet (ChunkNode.key self)] w in
     cache w !! cache_key = None →
     Chunk_lookup (store w) (ChunkNode.key self) = Raises Chunk_DoesNotExist →
     Chunk_lookup s (ChunkNode.key self) = Returns c →
     context w !! "request" = Some request →
     truthy request = true →
     build_content (a_Chunk c) request (context w) = Returns text →
     py_int (ChunkNode.cache_time self) = Returns timeout →
     run (ChunkNode.render self) w = (Returns EmptyString, w1)
     ∧ run (ChunkNode.render self) (with_store s w1) =
         (Returns text,
          log [EvCacheGet cache_key;
               EvChunkGet (ChunkNode.key self);
               EvBuildContent (a_Chunk c) request;
               EvCacheSet cache_key text timeout]
            (with_cache (<[cache_key := (text, timeout)]> (cache w))
               (with_store s w1))))
  ∧
  (∀ (self : ObjChunkNode.t) (w : World) (owner : Owner.t)
     (s : ContentStore) (c : InlineChunk.t) (request : PyVal)
     (text : string) (timeout : Z),
     let cache_key := chunk_item_cache_key owner (ObjChunkNode.key self) in
     let model_type := get_for_model (Owner.class owner) in
     let inline_lookup :=
       EvInlineChunkGet model_type (Owner.id owner) (ObjChunkNode.key self) in
     let w1 := log [EvCacheGet cache_key; inline_lookup] w in
     Variable_resolve (ObjChunkNode.obj self) (context w)
       = Returns (VObj owner) →
     cache w !! cache_key = None →
     InlineChunk_lookup (store w) model_type (Owner.id owner)
       (ObjChunkNode.key self) = Raises InlineChunk_DoesNotExist →
     truthy_opt (ObjChunkNode.default_chunk self) = false →
     InlineChunk_lookup s model_type (Owner.id owner)
       (ObjChunkNode.key self) = Returns c →
     context w !! "request" = Some request →
     truthy request = true →
     build_content (an_InlineChunk c) request (context w) = Returns text →
     py_int (ObjChunkNode.cache_time self) = Returns timeout →
     run (ObjChunkNode.render self) w = (Returns EmptyString, w1)
     ∧ run (ObjChunkNode.render self) (with_store s w1) =
         (Returns text,
          log [EvCacheGet cache_key; inline_lookup;
               EvBuildContent (an_InlineChunk c) request;
               EvCacheSet cache_key text timeout]
            (with_cache (<[cache_key := (text, timeout)]> (cache w))
               (with_store s w1)))).
Proof.
  split.
  - intros self w s c request text timeout cache_key w1
      Hmiss Hnone Hfound Hrequest Htruthy Hrender Htimeout.
    split; [by apply ChunkNode_run_not_found|].
    by apply (ChunkNode_run_rendered self (with_store s w1)).
  - intros self w owner s c request text timeout cache_key model_type
      inline_lookup w1 Howner Hmiss Hnone Hdefault Hfound Hrequest Htruthy
      Hrender Htimeout.
    split; [by apply ObjChunkNode_run_no_default|].
    by apply (ObjChunkNode_run_inline_rendered self (with_store s w1) owner).
Qed.

Lemma chunk_created_later_is_rendered_witness :
  let news : Chunk.t :=
    {| Chunk.key := "news"; Chunk.content := "Opening soon" |} in
  let aside : InlineChunk.t :=
    {| InlineChunk.content_type := 7; InlineChunk.object_id := 42;
       InlineChunk.key := "aside"; InlineChunk.content := "An aside" |} in
  let edited : ContentStore :=
    {| Chunk_rows := news :: Chunk_rows Fixture.site;
       InlineChunk_rows := aside :: InlineChunk_rows Fixture.site |} in
  let news_node := ChunkNode.__init__ "news" (VStr "60") in
  let aside_node := ObjChunkNode.Build_t "article" "aside" (VInt 0) None in
  let w1 := log [EvCacheGet "chunk_news"; EvChunkGet "news"] Fixture.page in
  let w2 :=
    log [EvCacheGet "chunk_Article_42_aside"; EvInlineChunkGet 7 42 "aside"]
      Fixture.page in
  (run (ChunkNode.render (H := Fixture.collaborators) news_node)
     Fixture.page = (Returns EmptyString, w1)
   ∧ (run (ChunkNode.render (H := Fixture.collaborators) news_node)
        (with_store edited w1)).1 = Returns "Opening soon")
  ∧
  (run (ObjChunkNode.render (H := Fixture.collaborators) aside_node)
     Fixture.page = (Returns EmptyString, w2)
   ∧ (run (ObjChunkNode.render (H := Fixture.collaborators) aside_node)
        (with_store edited w2)).1 = Returns "An aside").
Proof.
  intros news aside edited news_node aside_node w1 w2.
  destruct (chunk_created_later_is_rendered (H := Fixture.collaborators))
    as [Hglobal Hobject].
  split.
  - destruct (Hglobal news_node Fixture.page edited news Fixture.request
                "Opening soon" 60) as [Hfirst Hsecond];
      try (vm_compute; reflexivity).
    split; [exact Hfirst | exact (f_equal fst Hsecond)].
  - destruct (Hobject aside_node Fixture.page Fixture.article edited aside
                Fixture.request "An aside" 0) as [Hfirst Hsecond];
      try (vm_compute; reflexivity).
    split; [exact Hfirst | exact (f_equal fst Hsecond)].
Defined.

(** ** Exceptions that are not recovered *)

(** X16.  The cache time of a [chunk] tag is not looked at when the tag is
    compiled: a third token that is no integer compiles.  It is converted
    at every render that misses, after the chunk was rendered, so such a
    tag raises [ValueError] at render time and caches nothing. *)
Theorem cache_time_is_converted_at_render_time `{Collaborators}
    (tag q body cache_time : string) :
  is_quote q →
  int_of_str cache_time = None →
  let self := ChunkNode.__init__ body (VStr cache_time) in
  do_get_chunk [tag; quoted q body; cache_time] = Returns self
  ∧ ∀ (w : World) (c : Chunk.t) (request : PyVal) (text : string),
      cache w !! (CACHE_PREFIX ++ body) = None →
      Chunk_lookup (store w) body = Returns c →
      context w !! "request" = Some request →
      truthy request = true →
      build_content (a_Chunk c) request (context w) = Returns text →
      run (ChunkNode.render self) w =
        (Raises ValueError,
         log [EvCacheGet (CACHE_PREFIX ++ body); EvChunkGet body;
              EvBuildContent (a_Chunk c) request] w).
Proof.
  intros Hq Hint self. split.
  - rewrite do_get_chunk_three.
    rewrite (properly_quoted_quoted q body) by exact Hq.
    simpl. by rewrite (str_strip_ends_quoted q body) by exact Hq.
  - intros w c request text Hmiss Hfound Hrequest Htruthy Hrender.
    apply (ChunkNode_run_bad_cache_time self w c request text ValueError);
      try done.
    simpl. by rewrite Hint.
Qed.

Lemma cache_time_is_converted_at_render_time_witness :
  let self := ChunkNode.__init__ "footer" (VStr "1h") in
  do_get_chunk ["chunk"; quoted double_quote "footer"; "1h"] = Returns self
  ∧ run (ChunkNode.render (H := Fixture.collaborators) self) Fixture.page =
      (Raises ValueError,
       log [EvCacheGet "chunk_footer"; EvChunkGet "footer";
            EvBuildContent (a_Chunk Fixture.footer) Fixture.request]
         Fixture.page).
Proof.
  intros self.
  destruct (cache_time_is_converted_at_render_time
              (H := Fixture.collaborators) "chunk" double_quote "footer" "1h")
    as [Hcompile Hrender]; [by right | reflexivity |].
  split; [exact Hcompile|].
  apply (Hrender Fixture.page Fixture.footer Fixture.request "(c) Acme");
    vm_compute; reflexivity.
Defined.

(** X17.  An exception of [build_content].  [ChunkNode.render] turns
    [Chunk.DoesNotExist] into the empty string and lets every other
    exception through; [ObjChunkNode.render] also turns
    [VariableDoesNotExist] into the empty string, for the inline chunk
    and for the default chunk alike.  Either way the cache is left as it
    was. *)
Theorem build_content_exceptions `{Collaborators} :
  (∀ (self : ChunkNode.t) (w : World) (c : Chunk.t) (request : PyVal)
     (e : Exn),
     let cache_key := CACHE_PREFIX ++ ChunkNode.key self in
     cache w !! cache_key = None →
     Chunk_lookup (store w) (ChunkNode.key self) = Returns c →
     context w !! "request" = Some request →
     truthy request = true →
     build_content (a_Chunk c) request (context w) = Raises e →
     run (ChunkNode.render self) w =
       (if bool_decide (e = Chunk_DoesNotExist)
        then Returns EmptyString else Raises e,
        log [EvCacheGet cache_key; EvChunkGet (ChunkNode.key self);
             EvBuildContent (a_Chunk c) request] w))
  ∧
  (∀ (self : ObjChunkNode.t) (w : World) (owner : Owner.t) (c : AnyChunk)
     (request : PyVal) (e : Exn),
     let cache_key := chunk_item_cache_key owner (ObjChunkNode.key self) in
     let model_type := get_for_model (Owner.class owner) in
     let inline := InlineChunk_lookup (store w) model_type (Owner.id owner)
                     (ObjChunkNode.key self) in
     Variable_resolve (ObjChunkNode.obj self) (context w)
       = Returns (VObj owner) →
     cache w !! cache_key = None →
     (∃ row, c = an_InlineChunk row ∧ inline = Returns row)
     ∨ (∃ default_key row,
          c = a_Chunk row
          ∧ inline = Raises InlineChunk_DoesNotExist
          ∧ truthy_opt (ObjChunkNode.default_chunk self) = true
          ∧ ObjChunkNode.default_chunk self = Some default_key
          ∧ Chunk_lookup (store w) default_key = Returns row) →
     context w !! "request" = Some request →
     truthy request = true →
     build_content c request (context w) = Raises e →
     let r := run (ObjChunkNode.render self) w in
     r.1 = (if bool_decide (e = Chunk_DoesNotExist)
               || bool_decide (e = VariableDoesNotExist)
            then Returns EmptyString else Raises e)
     ∧ cache r.2 = cache w
     ∧ ∃ evs, trace r.2 = (trace w ++ evs ++ [EvBuildContent c request])%list).
Proof.
  split.
  - intros self w c request e cache_key Hmiss Hfound Hrequest Htruthy
      Hrender.
    unfold ChunkNode.render. exec. fold cache_key.
    step Hmiss. step Hfound. step Hrequest. step Htruthy. step Hrender.
    unfold is_Chunk_DoesNotExist. case_bool_decide; simpl; same_world.
  - intros self w owner c request e cache_key model_type inline
      Howner Hmiss Hfound Hrequest Htruthy Hrender r. subst r.
    unfold ObjChunkNode.render. exec.
    step Howner. fold cache_key. step Hmiss.
    fold model_type.
    change (InlineChunk_lookup (store w) model_type (Owner.id owner)
              (ObjChunkNode.key self)) with inline.
    destruct Hfound as [(row & -> & Hinline)
                       |(default_key & row & -> & Hinline & Hgiven & Hdefault
                         & Hfound)].
    + step Hinline. step Hrequest. step Htruthy. step Hrender.
      unfold is_Chunk_DoesNotExist_or_VariableDoesNotExist.
      destruct (_ || _); simpl; (split; [done|]); (split; [done|]);
        rewrite <- !app_assoc; by eexists [_; _].
    + step Hinline. step Hgiven. rewrite Hdefault. simpl. step Hfound.
      step Hrequest. step Htruthy. step Hrender.
      unfold is_Chunk_DoesNotExist_or_VariableDoesNotExist.
      destruct (_ || _); simpl; (split; [done|]); (split; [done|]);
        rewrite <- !app_assoc; by eexists [_; _; _].
Qed.

Lemma build_content_exceptions_witness :
  let template_error : Collaborators :=
    {| CACHE_PREFIX := "chunk_";
       chunk_item_cache_key := @chunk_item_cache_key Fixture.collaborators;
       chunks := @chunks Fixture.collaborators;
       build_content c request ctx := Raises VariableDoesNotExist;
       get_for_model := @get_for_model Fixture.collaborators;
       template_Variable := Fixture.variable;
       int_of_str := Fixture.int_of_digits |} in
  let footer_node := ChunkNode.__init__ "footer" (VStr "60") in
  let byline_node := ObjChunkNode.Build_t "article" "byline" (VInt 0) None in
  let r := run (ObjChunkNode.render (H := template_error) byline_node)
             Fixture.page in
  run (ChunkNode.render (H := template_error) footer_node) Fixture.page =
    (Raises VariableDoesNotExist,
     log [EvCacheGet "chunk_footer"; EvChunkGet "footer";
          EvBuildContent (a_Chunk Fixture.footer) Fixture.request]
       Fixture.page)
  ∧ r.1 = Returns EmptyString
  ∧ cache r.2 = ∅.
Proof.
  intros template_error footer_node byline_node r.
  destruct (build_content_exceptions (H := template_error))
    as [Hglobal Hobject].
  split.
  - apply (Hglobal footer_node Fixture.page Fixture.footer Fixture.request
             VariableDoesNotExist); vm_compute; reflexivity.
  - destruct (Hobject byline_node Fixture.page Fixture.article
                (an_InlineChunk Fixture.byline) Fixture.request
                VariableDoesNotExist) as (Hout & Hcache & _);
      try (vm_compute; reflexivity).
    + left. exists Fixture.byline. split; vm_compute; reflexivity.
    + split; [exact Hout | exact Hcache].
Defined.

(** X18.  An owner variable that resolves to something that is no chunk
    owner.  The value has no [chunk_item_cache_key] and no [chunks], and
    no handler takes [AttributeError]: [ObjChunkNode.render] raises it
    before any call, and [ObjChunksListNode.render] raises it after the
    test of the request, so without a request [ImproperlyConfigured]
    comes first.  Nothing is bound and the world is left as it was. *)
Theorem owner_without_chunks_raises_AttributeError `{Collaborators} :
  (∀ (self : ObjChunkNode.t) (w : World) (v : PyVal),
     Variable_resolve (ObjChunkNode.obj self) (context w) = Returns v →
     as_owner v = Raises AttributeError →
     run (ObjChunkNode.render self) w = (Raises AttributeError, w))
  ∧
  (∀ (tag owner_ref target_name : string) (self : ObjChunksListNode.t)
     (w : World) (name v : PyVal),
     do_get_object_chunks_list [tag; owner_ref; target_name]
       = Returns self →
     Variable_resolve target_name (context w) = Returns name →
     Variable_resolve owner_ref (context w) = Returns v →
     as_owner v = Raises AttributeError →
     run (ObjChunksListNode.render self) w =
       (Raises (if holds_request w then AttributeError
                else ImproperlyConfigured), w)).
Proof.
  split.
  - intros self w v Hobj Hv.
    unfold ObjChunkNode.render. exec. step Hobj. by step Hv.
  - intros tag owner_ref target_name self w name v Hnode Hname Hobj Hv.
    apply do_get_object_chunks_list_node in Hnode as ->.
    unfold holds_request, ObjChunksListNode.render. exec.
    step Hname. step Hobj.
    destruct (truthy _); simpl; [by step Hv | done].
Qed.

Lemma owner_without_chunks_raises_AttributeError_witness :
  let labelled := ObjChunkNode.Build_t "slot" "byline" (VInt 0) None in
  (run (ObjChunkNode.render (H := Fixture.collaborators) labelled)
     Fixture.page = (Raises AttributeError, Fixture.page))
  ∧
  (∃ self, do_get_object_chunks_list (H := Fixture.collaborators)
             ["object_chunks_list"; "slot"; "slot"]
             = Returns self
           ∧ run (ObjChunksListNode.render (H := Fixture.collaborators) self)
               Fixture.page = (Raises AttributeError, Fixture.page)
           ∧ run (ObjChunksListNode.render (H := Fixture.collaborators) self)
               Fixture.page_without_request
             = (Raises ImproperlyConfigured, Fixture.page_without_request)).
Proof.
  intros labelled.
  destruct (owner_without_chunks_raises_AttributeError
              (H := Fixture.collaborators)) as [Hobject Hlist].
  split.
  - apply (Hobject labelled Fixture.page (VStr "sidebar")); reflexivity.
  - eexists. split; [reflexivity|]. split.
    + eapply (Hlist "object_chunks_list" "slot" "slot" _ Fixture.page
                (VStr "sidebar") (VStr "sidebar")); reflexivity.
    + eapply (Hlist "object_chunks_list" "slot" "slot" _
                Fixture.page_without_request
                (VStr "sidebar") (VStr "sidebar")); reflexivity.
Defined.

(** X19.  An exception of the owner's [chunks].  [Chunk.DoesNotExist] and
    [VariableDoesNotExist] are recovered as the empty mapping, which is
    bound under the target name; any other exception leaves
    [ObjChunksListNode.render] with nothing bound. *)
Theorem chunks_exceptions `{Collaborators}
    (tag owner_ref target_name : string) (self : ObjChunksListNode.t)
    (w : World) (name : string) (owner : Owner.t) (request : PyVal)
    (e : Exn) :
  do_get_object_chunks_list [tag; owner_ref; target_name] = Returns self →
  Variable_resolve target_name (context w) = Returns (VStr name) →
  Variable_resolve owner_ref (context w) = Returns (VObj owner) →
  context w !! "request" = Some request →
  truthy request = true →
  chunks owner request (context w) = Raises e →
  run (ObjChunksListNode.render self) w =
    if bool_decide (e = Chunk_DoesNotExist)
       || bool_decide (e = VariableDoesNotExist)
    then (Returns EmptyString,
          log [EvChunks owner request]
            (with_context (<[name := VDict ∅]> (context w)) w))
    else (Raises e, log [EvChunks owner request] w).
Proof.
  intros Hnode Hname Hobj Hrequest Htruthy Hchunks.
  apply do_get_object_chunks_list_node in Hnode as ->.
  unfold ObjChunksListNode.render. exec.
  step Hname. step Hobj. step Hrequest. step Htruthy. step Hchunks.
  unfold is_Chunk_DoesNotExist_or_VariableDoesNotExist.
  destruct (_ || _); simpl; same_world.
Qed.

Lemma chunks_exceptions_witness :
  let unsaved : Collaborators :=
    {| CACHE_PREFIX := "chunk_";
       chunk_item_cache_key := @chunk_item_cache_key Fixture.collaborators;
       chunks o request ctx := Raises Chunk_DoesNotExist;
       build_content := @build_content Fixture.collaborators;
       get_for_model := @get_for_model Fixture.collaborators;
       template_Variable := Fixture.variable;
       int_of_str := Fixture.int_of_digits |} in
  ∃ self, do_get_object_chunks_list (H := Fixture.collaborators)
            ["object_chunks_list"; "article"; "slot"]
            = Returns self
          ∧ run (ObjChunksListNode.render (H := unsaved) self) Fixture.page =
              (Returns EmptyString,
               log [EvChunks Fixture.article Fixture.request]
                 (with_context
                    (<["sidebar" := VDict ∅]> (context Fixture.page))
                    Fixture.page)).
Proof.
  intros unsaved. eexists. split; [reflexivity|].
  eapply (chunks_exceptions (H := unsaved) "object_chunks_list" "article"
            "slot" _ Fixture.page "sidebar" Fixture.article Fixture.request
            Chunk_DoesNotExist); reflexivity.
Defined.

(** X20.  The target name of a compiled [object_chunks_list] tag is
    resolved before the [try]: whatever exception its resolution raises,
    [VariableDoesNotExist] included, leaves [render] at once, whether or
    not the owner resolves and whether or not there is a request, and the
    world is left as it was. *)
Theorem target_name_is_resolved_first `{Collaborators}
    (tag owner_ref target_name : string) (self : ObjChunksListNode.t)
    (w : World) (e : Exn) :
  do_get_object_chunks_list [tag; owner_ref; target_name] = Returns self →
  Variable_resolve target_name (context w) = Raises e →
  run (ObjChunksListNode.render self) w = (Raises e, w).
Proof.
  intros Hnode Hname.
  apply do_get_object_chunks_list_node in Hnode as ->.
  by apply ObjChunksListNode_run_name_unresolved.
Qed.

Lemma target_name_is_resolved_first_witness :
  ∃ self, do_get_object_chunks_list (H := Fixture.collaborators)
            ["object_chunks_list"; "article"; "article_chunks"]
            = Returns self
          ∧ run (ObjChunksListNode.render (H := Fixture.collaborators) self)
              Fixture.page = (Raises VariableDoesNotExist, Fixture.page).
Proof.
  eexists. split; [reflexivity|].
  eapply (target_name_is_resolved_first (H := Fixture.collaborators)
            "object_chunks_list" "article" "article_chunks" _ Fixture.page
            VariableDoesNotExist); reflexivity.
Defined.

(** X21.  However [ObjChunksListNode.render] ends, for every node and
    every world: the cache and the store are left as they were, the only
    call to a collaborator that it can make is one call of [chunks], and
    when it raises the context is left as it was too. *)
Theorem ObjChunksListNode_render_frame `{Collaborators}
    (self : ObjChunksListNode.t) (w : World) :
  let r := run (ObjChunksListNode.render self) w in
  cache r.2 = cache w
  ∧ store r.2 = store w
  ∧ (trace r.2 = trace w
     ∨ ∃ owner request, trace r.2 = (trace w ++ [EvChunks owner request])%list)
  ∧ ∀ e, r.1 = Raises e → context r.2 = context w.
Proof.
  unfold ObjChunksListNode.render. exec.
  repeat case_match; simplify_eq; simpl;
    rewrite ?app_nil_r; repeat split; eauto; done.
Qed.

(** X22.  Several rows for one key.  The managers raise
    [MultipleObjectsReturned], which no handler of [ChunkNode.render] and
    [ObjChunkNode.render] takes: on a miss the exception leaves [render]
    after the lookup, before the request is looked for, and nothing is
    rendered or cached. *)
Theorem several_rows_raise_MultipleObjectsReturned `{Collaborators} :
  (∀ (self : ChunkNode.t) (w : World) (c1 c2 : Chunk.t) (rest : list Chunk.t),
     let cache_key := CACHE_PREFIX ++ ChunkNode.key self in
     cache w !! cache_key = None →
     List.filter (Chunk_matches (ChunkNode.key self)) (Chunk_rows (store w))
       = c1 :: c2 :: rest →
     run (ChunkNode.render self) w =
       (Raises MultipleObjectsReturned,
        log [EvCacheGet cache_key; EvChunkGet (ChunkNode.key self)] w))
  ∧
  (∀ (self : ObjChunkNode.t) (w : World) (owner : Owner.t)
     (c1 c2 : InlineChunk.t) (rest : list InlineChunk.t),
     let cache_key := chunk_item_cache_key owner (ObjChunkNode.key self) in
     let model_type := get_for_model (Owner.class owner) in
     Variable_resolve (ObjChunkNode.obj self) (context w)
       = Returns (VObj owner) →
     cache w !! cache_key = None →
     List.filter
       (InlineChunk_matches model_type (Owner.id owner)
          (ObjChunkNode.key self))
       (InlineChunk_rows (store w)) = c1 :: c2 :: rest →
     run (ObjChunkNode.render self) w =
       (Raises MultipleObjectsReturned,
        log [EvCacheGet cache_key;
             EvInlineChunkGet model_type (Owner.id owner)
               (ObjChunkNode.key self)] w)).
Proof.
  split.
  - intros self w c1 c2 rest cache_key Hmiss Hrows.
    unfold ChunkNode.render. exec. fold cache_key. step Hmiss.
    unfold Chunk_lookup, objects_get. rewrite Hrows. simpl. same_world.
  - intros self w owner c1 c2 rest cache_key model_type Howner Hmiss Hrows.
    unfold ObjChunkNode.render. exec. step Howner. fold cache_key.
    step Hmiss. fold model_type.
    unfold InlineChunk_lookup, objects_get. rewrite Hrows. simpl.
    same_world.
Qed.

Lemma several_rows_raise_MultipleObjectsReturned_witness :
  let footer' : Chunk.t :=
    {| Chunk.key := "footer"; Chunk.content := "All rights reserved" |} in
  let byline' : InlineChunk.t :=
    {| InlineChunk.content_type := 7; InlineChunk.object_id := 42;
       InlineChunk.key := "byline"; InlineChunk.content := "By A. N. Other" |}
  in
  let doubled : ContentStore :=
    {| Chunk_rows := footer' :: Chunk_rows Fixture.site;
       InlineChunk_rows := byline' :: InlineChunk_rows Fixture.site |} in
  let w := with_store doubled Fixture.page in
  let footer_node := ChunkNode.__init__ "footer" (VStr "60") in
  let byline_node :=
    ObjChunkNode.Build_t "article" "byline" (VInt 0)
      (Some "byline_default") in
  run (ChunkNode.render (H := Fixture.collaborators) footer_node) w =
    (Raises MultipleObjectsReturned,
     log [EvCacheGet "chunk_footer"; EvChunkGet "footer"] w)
  ∧ run (ObjChunkNode.render (H := Fixture.collaborators) byline_node) w =
      (Raises MultipleObjectsReturned,
       log [EvCacheGet "chunk_Article_42_byline";
            EvInlineChunkGet 7 42 "byline"] w).
Proof.
  intros footer' byline' doubled w footer_node byline_node.
  destruct (several_rows_raise_MultipleObjectsReturned
              (H := Fixture.collaborators)) as [Hglobal Hobject].
  split.
  - apply (Hglobal footer_node w footer' Fixture.footer []);
      vm_compute; reflexivity.
  - apply (Hobject byline_node w Fixture.article byline' Fixture.byline []);
      vm_compute; reflexivity.
Defined.
